(** * Authentication and user-directory helpers of the travel agency dashboard

    A shallow embedding of the authentication module (getExistingUser,
    getGooglePicture, storeUserData, loginWithGoogle, logoutUser, getUser,
    getAllUsers) and the properties of its find-or-create reconciliation
    flow.

    The functions are [async] JavaScript that talks to three outside
    parties: the session provider ([account]), the remote document store
    ([database]) and an HTTP endpoint ([fetch]).  They are embedded in a
    state-and-exception monad: the state holds the remote user collection
    and the trace of every outside call in program order, an exception is a
    rejected promise or a [throw]. *)

From Stdlib Require Import ZArith.
From stdpp Require Import gmap strings list fin_maps.

Open Scope string_scope.
Open Scope Z_scope.
Open Scope list_scope.

Local Set Warnings "-register-all".

(** ** JavaScript values *)

(** A parsed JSON value.  An object is the list of its own properties. *)
Inductive Json : Type :=
  | JNull
  | JBool (b : bool)
  | JNum (z : Z)
  | JStr (s : string)
  | JArr (items : list Json)
  | JObj (props : list (string * Json)).

(** A value that may be [undefined], [null] or a proper value. *)
Inductive Nullable (A : Type) : Type :=
  | Undefined
  | Null
  | Val (a : A).
Arguments Undefined {A}.
Arguments Null {A}.
Arguments Val {A} a.

(** Truthiness of an object-or-nullish value: objects are truthy. *)
Definition truthy {A} (v : Nullable A) : bool :=
  match v with Val _ => true | _ => false end.

(** Thrown values.  Only the backend's exception carries a numeric [code]. *)
Inductive JsError : Type :=
  | AppwriteException (code : Z) (message : string)
  | TypeError (message : string)
  | SyntaxError (message : string)
  | Error (message : string).

(** [err.code === n] *)
Definition code_is (err : JsError) (n : Z) : bool :=
  match err with
  | AppwriteException c _ => Z.eqb c n
  | _ => false
  end.

Inductive Outcome (A : Type) : Type :=
  | Returned (a : A)
  | Thrown (err : JsError).
Arguments Returned {A} a.
Arguments Thrown {A} err.

(** *** Property access on JSON values *)

Fixpoint assoc (k : string) (props : list (string * Json)) : option Json :=
  match props with
  | [] => None
  | (k', v) :: rest => if String.eqb k k' then Some v else assoc k rest
  end.

(** [v.k] for a value [v] that is neither [null] nor [undefined];
    [None] is [undefined]. *)
Definition js_prop (v : Json) (k : string) : option Json :=
  match v with
  | JObj props => assoc k props
  | JArr items => if String.eqb k "length" then Some (JNum (Z.of_nat (length items))) else None
  | JStr s => if String.eqb k "length" then Some (JNum (Z.of_nat (String.length s))) else None
  | _ => None
  end.

(** [v[0]] for a value [v] that is neither [null] nor [undefined]. *)
Definition js_index0 (v : Json) : option Json :=
  match v with
  | JObj props => assoc "0" props
  | JArr items => head items
  | JStr (String c _) => Some (JStr (String c EmptyString))
  | _ => None
  end.

(** [v.k]: a [TypeError] on [null]. *)
Definition js_member (v : Json) (k : string) : Outcome (option Json) :=
  match v with
  | JNull => Thrown (TypeError "Cannot read properties of null")
  | _ => Returned (js_prop v k)
  end.

(** [v?.[0]] and [v?.k]: [undefined] on [null] and [undefined]. *)
Definition js_opt_index0 (v : option Json) : option Json :=
  match v with
  | None | Some JNull => None
  | Some w => js_index0 w
  end.

Definition js_opt_member (v : option Json) (k : string) : option Json :=
  match v with
  | None | Some JNull => None
  | Some w => js_prop w k
  end.

(** [v ?? null] *)
Definition js_or_null (v : option Json) : Json :=
  match v with
  | None => JNull
  | Some w => w
  end.

(** [data.photos?.[0]?.url ?? null] *)
Definition photo_url (data : Json) : Outcome Json :=
  match js_member data "photos" with
  | Thrown err => Thrown err
  | Returned photos => Returned (js_or_null (js_opt_member (js_opt_index0 photos) "url"))
  end.

(** ** The outside world *)

(** [Models.User] as far as the code reads it. *)
Record User : Type := mkUser {
  user_id : string;      (* $id *)
  user_email : string;
  user_name : string;
}.

(** [Models.Session] as far as the code reads it; [None] is an absent or
    [null] property. *)
Record Session : Type := mkSession {
  providerAccessToken : option string;
}.

(** A document of the user collection: a JavaScript object. *)
Abbreviation Document := (gmap string Json).

Inductive Query : Type :=
  | QEqual (attribute : string) (value : string)
  | QSelect (attributes : list string)
  | QLimit (n : Z)
  | QOffset (n : Z).

Inductive OAuthProvider : Type := Google.

(** What [fetch] does: reject, or resolve to a response with its [ok] flag
    and the result of [res.json()] ([None]: the body is not JSON). *)
Inductive FetchOutcome : Type :=
  | FetchRejects (err : JsError)
  | FetchResponse (ok : bool) (body : option Json).

(** Every call that leaves the module, in program order. *)
Inductive Event : Type :=
  | EvAccountGet
  | EvGetSession (sessionId : string)
  | EvDeleteSession (sessionId : string)
  | EvCreateOAuth2Session (provider : OAuthProvider) (success failure : string)
  | EvFetch (url authorization : string)
  | EvListDocuments (databaseId collectionId : string) (queries : list Query)
  | EvCreateDocument (databaseId collectionId documentId : string) (data : Document)
  | EvRedirect (path : string)
  | EvConsoleError (label : string) (err : JsError).

(** The ambient configuration and the behaviour of the outside parties
    during one call of a function of the module. *)
Record Env : Type := mkEnv {
  databaseId : string;                      (* appwriteConfig.databaseId *)
  userCollectionId : string;                (* appwriteConfig.userCollectionId *)
  origin : string;                          (* window.location.origin *)
  now_iso : string;                         (* new Date().toISOString() *)
  unique_id : string;                       (* ID.unique() *)
  account_get_result : Outcome User;
  account_getSession_result : string -> Outcome Session;
  account_deleteSession_fault : string -> option JsError;
  account_createOAuth2Session_fault : option JsError;
  fetch_result : string -> string -> FetchOutcome;
  listDocuments_fault : list Query -> option JsError;
  createDocument_fault : Document -> option JsError;
}.

(** The state: the remote user collection and the trace so far. *)
Record Sys : Type := mkSys {
  store : list Document;
  trace : list Event;
}.

Definition log (ev : Event) (s : Sys) : Sys :=
  {| store := store s; trace := trace s ++ [ev] |}.

(** ** The monad *)

Definition M (A : Type) : Type := Env -> Sys -> Outcome A * Sys.

#[global] Instance M_ret : MRet M :=
  fun A a _ s => (Returned a, s).

#[global] Instance M_bind : MBind M :=
  fun A B f m env s =>
    match m env s with
    | (Returned a, s') => f a env s'
    | (Thrown err, s') => (Thrown err, s')
    end.

Definition throw {A} (err : JsError) : M A :=
  fun _ s => (Thrown err, s).

(** [try { body } catch (err) { handler }]; the effects of [body] up to
    the throw stay. *)
Definition try_catch {A} (body : M A) (handler : JsError -> M A) : M A :=
  fun env s =>
    match body env s with
    | (Returned a, s') => (Returned a, s')
    | (Thrown err, s') => handler err env s'
    end.

Definition ask : M Env := fun env s => (Returned env, s).

Definition emit (ev : Event) : M unit := fun _ s => (Returned tt, log ev s).

Definition lift_outcome {A} (o : Outcome A) : M A := fun _ s => (o, s).

Definition console_error (label : string) (err : JsError) : M unit :=
  emit (EvConsoleError label err).

(** [redirect(path)] of react-router builds a response object, which the
    callers below drop. *)
Definition redirect (path : string) : M unit := emit (EvRedirect path).

(** ** The remote services *)

(** [account.get()] *)
Definition account_get : M User :=
  _ ← emit EvAccountGet;
  env ← ask;
  lift_outcome (account_get_result env).

(** [account.getSession(id)] *)
Definition account_getSession (id : string) : M Session :=
  _ ← emit (EvGetSession id);
  env ← ask;
  lift_outcome (account_getSession_result env id).

(** [account.deleteSession(id)] *)
Definition account_deleteSession (id : string) : M unit :=
  _ ← emit (EvDeleteSession id);
  env ← ask;
  match account_deleteSession_fault env id with
  | Some err => throw err
  | None => mret tt
  end.

(** [account.createOAuth2Session(provider, success, failure)] *)
Definition account_createOAuth2Session (provider : OAuthProvider)
    (success failure : string) : M unit :=
  _ ← emit (EvCreateOAuth2Session provider success failure);
  env ← ask;
  match account_createOAuth2Session_fault env with
  | Some err => throw err
  | None => mret tt
  end.

(** [fetch(url, { headers: { Authorization: authorization } })] *)
Definition fetch (url authorization : string) : M FetchOutcome :=
  _ ← emit (EvFetch url authorization);
  env ← ask;
  mret (fetch_result env url authorization).

(** *** The document store *)

Record DocumentList : Type := mkDocumentList {
  documents : list Document;
  total : Z;
}.

(** [Query.equal(attribute, value)] on one document. *)
Definition field_equals (attribute value : string) (d : Document) : bool :=
  match d !! attribute with
  | Some (JStr s) => String.eqb s value
  | _ => false
  end.

Definition satisfies (q : Query) (d : Document) : bool :=
  match q with
  | QEqual a v => field_equals a v d
  | _ => true
  end.

Definition matching (queries : list Query) (d : Document) : bool :=
  forallb (fun q => satisfies q d) queries.

Fixpoint query_limit (queries : list Query) : option Z :=
  match queries with
  | [] => None
  | QLimit n :: _ => Some n
  | _ :: rest => query_limit rest
  end.

Fixpoint query_offset (queries : list Query) : Z :=
  match queries with
  | [] => 0
  | QOffset n :: _ => n
  | _ :: rest => query_offset rest
  end.

Fixpoint query_select (queries : list Query) : option (list string) :=
  match queries with
  | [] => None
  | QSelect attrs :: _ => Some attrs
  | _ :: rest => query_select rest
  end.

Definition paginate (queries : list Query) (docs : list Document) : list Document :=
  let rest := drop (Z.to_nat (query_offset queries)) docs in
  match query_limit queries with
  | Some n => take (Z.to_nat n) rest
  | None => rest
  end.

(** Field projection: keep the selected attributes of a document. *)
Definition project (attrs : list string) (d : Document) : Document :=
  filter (fun kv => kv.1 ∈ attrs) d.

Definition projection (queries : list Query) (d : Document) : Document :=
  match query_select queries with
  | Some attrs => project attrs d
  | None => d
  end.

(** Modelled from the spec: the remote document store behind
    [database.listDocuments], which belongs to the backend service and is
    not part of the sources.  It answers a list of queries with
    query-by-equality, limit/offset paging and field-projection select;
    [total] counts the matching documents. *)
Definition run_queries (queries : list Query) (docs : list Document) : DocumentList :=
  let hits := List.filter (matching queries) docs in
  {| documents := projection queries <$> paginate queries hits;
     total := Z.of_nat (length hits) |}.

(** [database.listDocuments(databaseId, collectionId, queries)] *)
Definition database_listDocuments (db coll : string) (queries : list Query)
    : M DocumentList :=
  fun env s =>
    let s' := log (EvListDocuments db coll queries) s in
    match listDocuments_fault env queries with
    | Some err => (Thrown err, s')
    | None => (Returned (run_queries queries (store s')), s')
    end.

(** Modelled from the spec: the create-document operation of the remote
    store behind [database.createDocument], not part of the sources.  The
    new document is the given data under the given id; it is added to the
    collection and returned. *)
Definition stored_document (id : string) (data : Document) : Document :=
  <["$id" := JStr id]> data.

(** [database.createDocument(databaseId, collectionId, documentId, data)] *)
Definition database_createDocument (db coll id : string) (data : Document)
    : M Document :=
  fun env s =>
    let s' := log (EvCreateDocument db coll id data) s in
    match createDocument_fault env data with
    | Some err => (Thrown err, s')
    | None =>
        let d := stored_document id data in
        (Returned d, {| store := store s' ++ [d]; trace := trace s' |})
    end.

(** ** The module *)

(** The value of [documents[0]]: [undefined] past the end. *)
Definition first_document (docs : list Document) : Nullable Document :=
  match docs with
  | d :: _ => Val d
  | [] => Undefined
  end.

(** Utility: get existing user from DB. *)
Definition getExistingUser (id : string) : M (Nullable Document) :=
  try_catch
    (env ← ask;
     r ← database_listDocuments (databaseId env) (userCollectionId env)
           [QEqual "accountId" id];
     mret (if 0 <? total r then first_document (documents r) else Null))
    (fun error =>
       _ ← console_error "Error fetching user:" error;
       mret Null).

Definition people_api : string :=
  "https://people.googleapis.com/v1/people/me?personFields=photos".

(** Utility: fetch Google profile picture.  The result is a JavaScript
    value ([JNull] for [null]). *)
Definition getGooglePicture (accessToken : string) : M Json :=
  try_catch
    (res ← fetch people_api ("Bearer " +:+ accessToken);
     match res with
     | FetchRejects err => throw err
     | FetchResponse ok body =>
         if negb ok then throw (Error "Failed to fetch Google profile picture")
         else
           match body with
           | None => throw (SyntaxError "Unexpected token in JSON")
           | Some data => lift_outcome (photo_url data)
           end
     end)
    (fun err =>
       _ ← console_error "Error fetching Google picture:" err;
       mret JNull).

(** [session?.providerAccessToken ?? null] *)
Definition provider_token (session : Nullable Session) : option string :=
  match session with
  | Val s => providerAccessToken s
  | _ => None
  end.

(** Truthiness of a string: the empty string is falsy. *)
Definition truthy_string (s : string) : bool :=
  negb (String.eqb s "").

(** The data object handed to [createDocument]. *)
Definition new_profile (user : User) (profilePicture : Json) (joinedAt : string)
    : Document :=
  {[ "accountId" := JStr (user_id user);
     "email" := JStr (user_email user);
     "name" := JStr (user_name user);
     "imageUrl" := profilePicture;
     "joinedAt" := JStr joinedAt ]}.

(** Create or store user in DB.  The inner [try] either leaves the
    function with a value ([inl]) or binds [user] ([inr]). *)
Definition storeUserData : M (Nullable Document) :=
  try_catch
    (got ← try_catch
             (user ← account_get; mret (inr user))
             (fun err =>
                if code_is err 401 then
                  _ ← redirect "/sign-in";
                  mret (inl Undefined)
                else throw err);
     match got with
     | inl early => mret early
     | inr user =>
         session ← try_catch
                     (s ← account_getSession "current"; mret (Val s))
                     (fun _ => mret Null);
         let providerAccessToken := provider_token session in
         profilePicture ←
           (match providerAccessToken with
            | Some token =>
                if truthy_string token then getGooglePicture token
                else mret JNull
            | None => mret JNull
            end);
         existingUser ← getExistingUser (user_id user);
         if truthy existingUser then mret existingUser
         else
           env ← ask;
           createdUser ← database_createDocument
                           (databaseId env) (userCollectionId env) (unique_id env)
                           (new_profile user profilePicture (now_iso env));
           mret (Val createdUser)
     end)
    (fun err =>
       _ ← console_error "Error storing user data:" err;
       mret Null).

(** Login with Google OAuth. *)
Definition loginWithGoogle : M unit :=
  try_catch
    (env ← ask;
     let origin := origin env in
     account_createOAuth2Session Google (origin +:+ "/") (origin +:+ "/404"))
    (fun err => console_error "Error creating OAuth2 session:" err).

(** Logout current user. *)
Definition logoutUser : M unit :=
  try_catch
    (account_deleteSession "current")
    (fun err => console_error "Error during logout:" err).

Definition selected_fields : list string :=
  ["name"; "email"; "imageUrl"; "joinedAt"; "accountId"].

(** Get current logged-in user. *)
Definition getUser : M (Nullable Document) :=
  try_catch
    (got ← try_catch
             (user ← account_get; mret (inr user))
             (fun err =>
                if code_is err 401 then
                  _ ← redirect "/sign-in";
                  mret (inl Null)
                else throw err);
     match got with
     | inl early => mret early
     | inr user =>
         env ← ask;
         r ← database_listDocuments (databaseId env) (userCollectionId env)
               [QEqual "accountId" (user_id user); QSelect selected_fields];
         mret (if (0 <? Z.of_nat (length (documents r)))
               then first_document (documents r) else Null)
     end)
    (fun err =>
       _ ← console_error "Error fetching user:" err;
       mret Null).

Record UsersPage : Type := mkUsersPage {
  users : list Document;
  users_total : Z;
}.

(** Get all users with pagination. *)
Definition getAllUsers (limit offset : Z) : M UsersPage :=
  try_catch
    (env ← ask;
     r ← database_listDocuments (databaseId env) (userCollectionId env)
           [QLimit limit; QOffset offset];
     mret {| users := documents r; users_total := total r |})
    (fun err =>
       _ ← console_error "Error fetching users:" err;
       mret {| users := []; users_total := 0 |}).

(** Running a function of the module against a world. *)
Definition run {A} (m : M A) (env : Env) (docs : list Document) : Outcome A * Sys :=
  m env {| store := docs; trace := [] |}.

Definition result_of {A} (m : M A) (env : Env) (docs : list Document) : Outcome A :=
  (run m env docs).1.

Definition trace_of {A} (m : M A) (env : Env) (docs : list Document) : list Event :=
  trace (run m env docs).2.

Definition store_after {A} (m : M A) (env : Env) (docs : list Document) : list Document :=
  store (run m env docs).2.

(** ** Vocabulary of the properties *)

(** The stored profiles of an account, in store order. *)
Definition profiles_of (accountId : string) (docs : list Document) : list Document :=
  List.filter (field_equals "accountId" accountId) docs.

Definition is_fetch (ev : Event) : bool :=
  match ev with EvFetch _ _ => true | _ => false end.

Definition is_lookup (ev : Event) : bool :=
  match ev with EvListDocuments _ _ _ => true | _ => false end.

Definition is_create (ev : Event) : bool :=
  match ev with EvCreateDocument _ _ _ _ => true | _ => false end.

Definition is_console (ev : Event) : bool :=
  match ev with EvConsoleError _ _ => true | _ => false end.

(** The query of the stored-profile lookup. *)
Definition lookup_query (accountId : string) : list Query :=
  [QEqual "accountId" accountId].

(** The provider credential of the current session that the picture fetch
    uses: its non-empty [providerAccessToken], if there is a session. *)
Definition credential (env : Env) : option string :=
  match account_getSession_result env "current" with
  | Returned session =>
      match providerAccessToken session with
      | Some token => if truthy_string token then Some token else None
      | None => None
      end
  | Thrown _ => None
  end.

(** The response to the picture request made with a credential. *)
Definition picture_response (env : Env) (token : string) : FetchOutcome :=
  fetch_result env people_api ("Bearer " +:+ token).

(** What a response amounts to: the picture, or the error of a failed
    fetch (network error, non-success status, body that is not JSON, body
    whose [photos] cannot be read). *)
Definition fetch_verdict (r : FetchOutcome) : Outcome Json :=
  match r with
  | FetchRejects err => Thrown err
  | FetchResponse false _ => Thrown (Error "Failed to fetch Google profile picture")
  | FetchResponse true None => Thrown (SyntaxError "Unexpected token in JSON")
  | FetchResponse true (Some data) => photo_url data
  end.

Definition fetch_fails (r : FetchOutcome) : bool :=
  match fetch_verdict r with Thrown _ => true | Returned _ => false end.

Definition fetch_error (r : FetchOutcome) : option JsError :=
  match fetch_verdict r with Thrown err => Some err | Returned _ => None end.

Definition picture_of (r : FetchOutcome) : Json :=
  match fetch_verdict r with Thrown _ => JNull | Returned v => v end.

(** The picture of the session: that of the response when there is a
    credential, [null] otherwise. *)
Definition resolved_picture (env : Env) : Json :=
  match credential env with
  | Some token => picture_of (picture_response env token)
  | None => JNull
  end.

Definition logged (label : string) (fault : option JsError) : list Event :=
  match fault with
  | Some err => [EvConsoleError label err]
  | None => []
  end.

(** The calls of the picture step. *)
Definition picture_events (env : Env) : list Event :=
  match credential env with
  | Some token =>
      EvFetch people_api ("Bearer " +:+ token)
        :: logged "Error fetching Google picture:" (fetch_error (picture_response env token))
  | None => []
  end.

(** What the lookup reports: the first stored profile of the account when
    the listing call succeeds and there is one, [null] otherwise. *)
Definition found (env : Env) (accountId : string) (docs : list Document)
    : Nullable Document :=
  match listDocuments_fault env (lookup_query accountId) with
  | Some _ => Null
  | None =>
      match profiles_of accountId docs with
      | d :: _ => Val d
      | [] => Null
      end
  end.

(** The calls of the lookup step. *)
Definition lookup_events (env : Env) (accountId : string) : list Event :=
  EvListDocuments (databaseId env) (userCollectionId env) (lookup_query accountId)
    :: logged "Error fetching user:" (listDocuments_fault env (lookup_query accountId)).

(** The document the create step asks for, and the call. *)
Definition profile_data (env : Env) (user : User) : Document :=
  new_profile user (resolved_picture env) (now_iso env).

Definition create_event (env : Env) (user : User) : Event :=
  EvCreateDocument (databaseId env) (userCollectionId env) (unique_id env)
    (profile_data env user).

(** Observations on a returned value: a field of the returned document,
    and whether the value is [null]. *)
Definition returned_field (k : string) (o : Outcome (Nullable Document))
    : option Json :=
  match o with
  | Returned (Val d) => d !! k
  | _ => None
  end.

Definition returned_null {A} (o : Outcome (Nullable A)) : bool :=
  match o with
  | Returned Null => true
  | _ => false
  end.

(** The queries of getUser. *)
Definition profile_query (accountId : string) : list Query :=
  [QEqual "accountId" accountId; QSelect selected_fields].

(** What getUser returns to an authenticated session. *)
Definition own_profile (env : Env) (accountId : string) (docs : list Document)
    : Nullable Document :=
  match listDocuments_fault env (profile_query accountId) with
  | Some _ => Null
  | None =>
      match profiles_of accountId docs with
      | d :: _ => Val (project selected_fields d)
      | [] => Null
      end
  end.

(** Along a trace, every picture fetch comes after a stored-profile
    lookup. *)
Fixpoint lookup_before_fetch (looked_up : bool) (tr : list Event) : bool :=
  match tr with
  | [] => true
  | ev :: rest =>
      (if is_fetch ev then looked_up else true)
        && lookup_before_fetch (looked_up || is_lookup ev) rest
  end.

(** Whether [account.getSession("current")] yields a token that the
    picture step uses: a session with a non-empty [providerAccessToken]. *)
Definition usable_token (r : Outcome Session) : bool :=
  match r with
  | Returned session =>
      match providerAccessToken session with
      | Some token => negb (String.eqb token "")
      | None => false
      end
  | Thrown _ => false
  end.

(** Calls that reach the document store. *)
Definition is_store_call (ev : Event) : bool :=
  is_lookup ev || is_create ev.

(** The store invariant: at most one stored profile per accountId. *)
Definition profiles_unique (docs : list Document) : Prop :=
  forall accountId, (length (profiles_of accountId docs) <= 1)%nat.

(** The store after a series of storeUserData calls that run one after
    another, one environment per call: each call completes before the
    next one starts, and nothing else writes to the store in between. *)
Definition logins (envs : list Env) (docs : list Document) : list Document :=
  fold_left (fun stored env => store_after storeUserData env stored) envs docs.

(** The listing call that the lookup of a call makes succeeds; a call that
    resolves no identity makes no lookup. *)
Definition lookup_succeeds (env : Env) : Prop :=
  match account_get_result env with
  | Returned user => listDocuments_fault env (lookup_query (user_id user)) = None
  | Thrown _ => True
  end.

(** ** Sample worlds *)

Module Sample.

Definition ann : User := mkUser "acc1" "ann@example.com" "Ann".

(** The profile stored at an earlier login of [ann]. *)
Definition ann_profile : Document :=
  stored_document "doc1" (new_profile ann JNull "2024-12-31T08:00:00.000Z").

Definition photo_body : Json :=
  JObj [("photos", JArr [JObj [("url", JStr "https://img.example/ann.png")]])].

Definition backend_down : JsError :=
  AppwriteException 500 "Server Error".

Definition unauthorized : JsError :=
  AppwriteException 401 "User (role: guests) missing scope (account)".

(** A browser at [http://localhost:5173] talking to database [db],
    collection [users]; the five arguments give the behaviour of the
    outside parties. *)
Definition world (who : Outcome User) (session : Outcome Session)
    (response : FetchOutcome) (list_fault create_fault : option JsError) : Env :=
  {| databaseId := "db";
     userCollectionId := "users";
     origin := "http://localhost:5173";
     now_iso := "2025-01-01T09:30:00.000Z";
     unique_id := "doc2";
     account_get_result := who;
     account_getSession_result := fun _ => session;
     account_deleteSession_fault := fun _ => None;
     account_createOAuth2Session_fault := None;
     fetch_result := fun _ _ => response;
     listDocuments_fault := fun _ => list_fault;
     createDocument_fault := fun _ => create_fault |}.

Definition google_session : Outcome Session :=
  Returned (mkSession (Some "ya29.token")).

(** Everything works. *)
Definition healthy : Env :=
  world (Returned ann) google_session (FetchResponse true (Some photo_body))
    None None.

(** The picture request is answered with status 403. *)
Definition picture_forbidden : Env :=
  world (Returned ann) google_session (FetchResponse false None) None None.

(** The listing call of the document store fails. *)
Definition listing_down : Env :=
  world (Returned ann) google_session (FetchResponse true (Some photo_body))
    (Some backend_down) None.

(** The create call of the document store fails. *)
Definition create_down : Env :=
  world (Returned ann) google_session (FetchResponse true (Some photo_body))
    None (Some backend_down).

(** Nobody is signed in. *)
Definition signed_out : Env :=
  world (Thrown unauthorized) (Thrown unauthorized)
    (FetchRejects (TypeError "Failed to fetch")) None None.

(** The session provider cannot be reached. *)
Definition offline : Env :=
  world (Thrown (TypeError "Failed to fetch")) (Thrown (TypeError "Failed to fetch"))
    (FetchRejects (TypeError "Failed to fetch")) None None.

(** A session opened without OAuth: the token is the empty string. *)
Definition password_session : Env :=
  world (Returned ann) (Returned (mkSession (Some "")))
    (FetchResponse true (Some photo_body)) None None.

End Sample.

(** ** Stepping through the monad *)

Ltac unfold_services :=
  unfold account_get, account_getSession, account_deleteSession,
    account_createOAuth2Session, fetch, database_listDocuments,
    database_createDocument, console_error, redirect.

Ltac unfold_monad :=
  unfold mbind, M_bind, mret, M_ret, try_catch, ask, emit, lift_outcome, throw.

Ltac run_simpl :=
  unfold result_of, trace_of, store_after, run;
  unfold_services; unfold_monad; cbn beta iota delta [fst snd store trace].

(** Bring the state reached by a run to the form
    [{| store := _; trace := t ++ events |}]. *)
Ltac norm_sys :=
  unfold log; cbn [store trace];
  repeat (progress (rewrite <- ?app_assoc; cbn [app])).

(** ** Reading the picture out of a response body *)

Example photo_url_first_photo :
  photo_url Sample.photo_body = Returned (JStr "https://img.example/ann.png").
Proof. reflexivity. Qed.

Example photo_url_no_photos :
  photo_url (JObj [("resourceName", JStr "people/1")]) = Returned JNull
  /\ photo_url (JObj [("photos", JArr [])]) = Returned JNull
  /\ photo_url (JObj [("photos", JArr [JObj [("default", JBool true)]])])
     = Returned JNull
  /\ photo_url (JStr "ok") = Returned JNull.
Proof. repeat split. Qed.

Example photo_url_null_body :
  photo_url JNull = Thrown (TypeError "Cannot read properties of null").
Proof. reflexivity. Qed.

(** Whatever the body, a picture that is not [null] was read from it. *)
Lemma fetch_fails_picture (r : FetchOutcome) :
  fetch_fails r = true -> picture_of r = JNull.
Proof.
  unfold fetch_fails, picture_of. now destruct (fetch_verdict r).
Qed.

(** ** Directory pagination *)

(** C6: for every limit and offset, when the backend listing call fails,
    getAllUsers does not raise and returns the empty page with total 0,
    [{ users: [], total: 0 }]. *)
Theorem getAllUsers_backend_failure (limit offset : Z) (env : Env)
    (docs : list Document) (err : JsError) :
  listDocuments_fault env [QLimit limit; QOffset offset] = Some err ->
  result_of (getAllUsers limit offset) env docs
    = Returned {| users := []; users_total := 0 |}.
Proof.
  intros Hfault. unfold getAllUsers. run_simpl. now rewrite Hfault.
Qed.

Lemma getAllUsers_backend_failure_witness :
  listDocuments_fault Sample.listing_down [QLimit 10; QOffset 0]
    = Some Sample.backend_down
  /\ result_of (getAllUsers 10 0) Sample.listing_down [Sample.ann_profile]
     = Returned {| users := []; users_total := 0 |}.
Proof.
  split; [reflexivity |].
  apply (getAllUsers_backend_failure 10 0 Sample.listing_down
           [Sample.ann_profile] Sample.backend_down).
  reflexivity.
Defined.

(** C7: when the store holds no profile and the backend call succeeds,
    getAllUsers(10, 0) returns the empty page with total 0. *)
Theorem getAllUsers_empty_store (env : Env) :
  listDocuments_fault env [QLimit 10; QOffset 0] = None ->
  result_of (getAllUsers 10 0) env []
    = Returned {| users := []; users_total := 0 |}.
Proof.
  intros Hok. unfold getAllUsers. run_simpl. now rewrite Hok.
Qed.

Lemma getAllUsers_empty_store_witness :
  listDocuments_fault Sample.healthy [QLimit 10; QOffset 0] = None
  /\ result_of (getAllUsers 10 0) Sample.healthy []
     = Returned {| users := []; users_total := 0 |}.
Proof.
  split; [reflexivity |].
  apply (getAllUsers_empty_store Sample.healthy). reflexivity.
Defined.

(** A page of a store with three profiles. *)
Example getAllUsers_second_page (a b c : Document) :
  result_of (getAllUsers 2 1) Sample.healthy [a; b; c]
    = Returned {| users := [b; c]; users_total := 3 |}.
Proof. reflexivity. Qed.

(** ** The steps of the reconciliation, in closed form *)

Lemma matching_lookup_query (id : string) (d : Document) :
  matching (lookup_query id) d = field_equals "accountId" id d.
Proof. unfold matching, lookup_query. cbn. apply andb_true_r. Qed.

Lemma filter_matching_lookup (id : string) (docs : list Document) :
  List.filter (matching (lookup_query id)) docs = profiles_of id docs.
Proof.
  unfold profiles_of. induction docs as [|d docs IH]; cbn [List.filter].
  - reflexivity.
  - rewrite matching_lookup_query, IH. reflexivity.
Qed.

Lemma run_lookup_query (id : string) (docs : list Document) :
  run_queries (lookup_query id) docs
    = {| documents := profiles_of id docs;
         total := Z.of_nat (length (profiles_of id docs)) |}.
Proof.
  unfold run_queries. rewrite filter_matching_lookup.
  unfold paginate, projection, lookup_query. cbn.
  now rewrite list_fmap_id.
Qed.

Lemma getExistingUser_run (id : string) (env : Env) (s : Sys) :
  getExistingUser id env s
    = (Returned (found env id (store s)),
       {| store := store s; trace := trace s ++ lookup_events env id |}).
Proof.
  unfold getExistingUser, found, lookup_events. unfold_services. unfold_monad.
  fold (lookup_query id). cbv zeta. cbn [store log].
  rewrite run_lookup_query.
  destruct (listDocuments_fault env (lookup_query id)) as [err|]; cbn.
  - now norm_sys.
  - destruct (profiles_of id (store s)) as [|d rest]; reflexivity.
Qed.

Lemma getGooglePicture_run (token : string) (env : Env) (s : Sys) :
  getGooglePicture token env s
    = (Returned (picture_of (picture_response env token)),
       {| store := store s;
          trace := trace s ++ EvFetch people_api ("Bearer " +:+ token)
                     :: logged "Error fetching Google picture:"
                          (fetch_error (picture_response env token)) |}).
Proof.
  unfold getGooglePicture, picture_of, fetch_error, fetch_verdict, picture_response.
  unfold_services. unfold_monad. cbn.
  destruct (fetch_result env people_api ("Bearer " +:+ token))
    as [err | [|] [data|]]; cbn; norm_sys; try reflexivity.
  destruct (photo_url data); cbn; norm_sys; reflexivity.
Qed.

(** The run of storeUserData for an authenticated session. *)
Lemma storeUserData_authenticated (env : Env) (s : Sys) (user : User) :
  account_get_result env = Returned user ->
  storeUserData env s =
    let t := trace s ++ EvAccountGet :: EvGetSession "current"
               :: picture_events env ++ lookup_events env (user_id user) in
    match found env (user_id user) (store s) with
    | Val d => (Returned (Val d), {| store := store s; trace := t |})
    | _ =>
        match createDocument_fault env (profile_data env user) with
        | None =>
            let created := stored_document (unique_id env) (profile_data env user) in
            (Returned (Val created),
             {| store := store s ++ [created];
                trace := t ++ [create_event env user] |})
        | Some err =>
            (Returned Null,
             {| store := store s;
                trace := t ++ [create_event env user;
                               EvConsoleError "Error storing user data:" err] |})
        end
    end.
Proof.
  intros Hacc.
  unfold storeUserData, picture_events, create_event, profile_data,
    resolved_picture, credential, provider_token.
  unfold_services. unfold_monad. cbn beta iota zeta. rewrite Hacc. cbn beta iota.
  cbn [store trace log].
  destruct (account_getSession_result env "current") as [[[token|]]|serr];
    cbn beta iota delta [providerAccessToken provider_token];
    try destruct (truthy_string token);
    rewrite ?getGooglePicture_run; rewrite getExistingUser_run;
    unfold log; cbn [store trace];
    (destruct (found env (user_id user) (store s)) as [| |d];
     cbn beta iota delta [truthy];
     [ destruct (createDocument_fault env _)
     | destruct (createDocument_fault env _) | ]);
    norm_sys; reflexivity.
Qed.

(** The run of storeUserData when nobody is signed in. *)
Lemma storeUserData_unauthorized (env : Env) (s : Sys) (err : JsError) :
  account_get_result env = Thrown err ->
  code_is err 401 = true ->
  storeUserData env s
    = (Returned Undefined,
       {| store := store s;
          trace := trace s ++ [EvAccountGet; EvRedirect "/sign-in"] |}).
Proof.
  intros Hacc H401. unfold storeUserData. unfold_services. unfold_monad.
  cbn beta iota zeta. rewrite Hacc. cbn beta iota. rewrite H401.
  now norm_sys.
Qed.

(** The run of storeUserData when the identity cannot be resolved for
    another reason. *)
Lemma storeUserData_account_error (env : Env) (s : Sys) (err : JsError) :
  account_get_result env = Thrown err ->
  code_is err 401 = false ->
  storeUserData env s
    = (Returned Null,
       {| store := store s;
          trace := trace s ++ [EvAccountGet;
                               EvConsoleError "Error storing user data:" err] |}).
Proof.
  intros Hacc H401. unfold storeUserData. unfold_services. unfold_monad.
  cbn beta iota zeta. rewrite Hacc. cbn beta iota. rewrite H401.
  now norm_sys.
Qed.

(** *** What the steps call *)

Lemma existsb_logged (p : Event -> bool) (label : string) (fault : option JsError) :
  (forall l e, p (EvConsoleError l e) = false) ->
  existsb p (logged label fault) = false.
Proof. intros Hp. destruct fault; cbn; now rewrite ?Hp. Qed.

Lemma picture_events_fetch (env : Env) :
  existsb is_fetch (picture_events env) = bool_decide (is_Some (credential env)).
Proof.
  unfold picture_events. destruct (credential env) as [token|]; reflexivity.
Qed.

Lemma picture_events_no_lookup (env : Env) :
  existsb is_lookup (picture_events env) = false.
Proof.
  unfold picture_events. destruct (credential env); cbn; [|reflexivity].
  now apply existsb_logged.
Qed.

Lemma picture_events_no_create (env : Env) :
  existsb is_create (picture_events env) = false.
Proof.
  unfold picture_events. destruct (credential env); cbn; [|reflexivity].
  now apply existsb_logged.
Qed.

Lemma lookup_events_no_create (env : Env) (id : string) :
  existsb is_create (lookup_events env id) = false.
Proof. unfold lookup_events. cbn. now apply existsb_logged. Qed.

(** ** The session reconciler *)

(** C1 (amended): for every session whose resolved identity has an
    accountId for which the stored-profile lookup call succeeds and an
    existing StoredProfile is in the store, storeUserData returns the
    first such record unchanged, performs no create operation and leaves
    the store as it is. *)
Theorem storeUserData_existing_profile (env : Env) (docs : list Document)
    (user : User) (d : Document) (others : list Document) :
  account_get_result env = Returned user ->
  listDocuments_fault env (lookup_query (user_id user)) = None ->
  profiles_of (user_id user) docs = d :: others ->
  result_of storeUserData env docs = Returned (Val d)
  /\ existsb is_create (trace_of storeUserData env docs) = false
  /\ store_after storeUserData env docs = docs.
Proof.
  intros Hacc Hlist Hprof.
  unfold result_of, trace_of, store_after, run.
  rewrite (storeUserData_authenticated _ _ _ Hacc). cbn [store trace].
  unfold found. rewrite Hlist, Hprof. cbn [fst snd store trace app].
  repeat split.
  cbn [existsb is_create orb]. rewrite existsb_app.
  now rewrite picture_events_no_create, lookup_events_no_create.
Qed.

Lemma storeUserData_existing_profile_witness :
  (account_get_result Sample.healthy = Returned Sample.ann
   /\ listDocuments_fault Sample.healthy (lookup_query "acc1") = None
   /\ profiles_of "acc1" [Sample.ann_profile] = [Sample.ann_profile])
  /\ result_of storeUserData Sample.healthy [Sample.ann_profile]
     = Returned (Val Sample.ann_profile)
  /\ existsb is_create (trace_of storeUserData Sample.healthy [Sample.ann_profile])
     = false
  /\ store_after storeUserData Sample.healthy [Sample.ann_profile]
     = [Sample.ann_profile].
Proof.
  split; [repeat split |].
  apply (storeUserData_existing_profile Sample.healthy [Sample.ann_profile]
           Sample.ann Sample.ann_profile []); reflexivity.
Defined.

(** C1 fails as stated: with the profile of [ann] in the store and the
    listing call of the lookup failing, storeUserData performs a create
    operation, returns the new record instead of the existing one and
    leaves two profiles of the account in the store. *)
Lemma storeUserData_existing_profile_listing_down :
  account_get_result Sample.listing_down = Returned Sample.ann
  /\ profiles_of (user_id Sample.ann) [Sample.ann_profile] = [Sample.ann_profile]
  /\ result_of storeUserData Sample.listing_down [Sample.ann_profile]
     <> Returned (Val Sample.ann_profile)
  /\ existsb is_create (trace_of storeUserData Sample.listing_down [Sample.ann_profile])
     = true
  /\ length (profiles_of (user_id Sample.ann)
               (store_after storeUserData Sample.listing_down [Sample.ann_profile]))
     = 2%nat.
Proof.
  repeat split; try (vm_compute; reflexivity).
  intros H. apply (f_equal (returned_field "$id")) in H.
  vm_compute in H. discriminate H.
Qed.

(** C3 (amended): in the reconciliation flow of an authenticated session
    the steps run in the order: resolve identity, read the current
    session, fetch the picture, look up the stored profile, create.  The
    picture fetch comes before the stored-profile lookup and is attempted
    exactly when the session carries a non-empty provider access token,
    whether or not a StoredProfile exists; nothing is created before the
    lookup, and the create is attempted exactly when the lookup reports no
    StoredProfile. *)
Theorem storeUserData_step_order (env : Env) (docs : list Document) (user : User) :
  account_get_result env = Returned user ->
  exists before after : list Event,
    trace_of storeUserData env docs
      = EvAccountGet :: EvGetSession "current" :: before
          ++ EvListDocuments (databaseId env) (userCollectionId env)
               (lookup_query (user_id user)) :: after
    /\ existsb is_lookup before = false
    /\ existsb is_create before = false
    /\ existsb is_fetch before = bool_decide (is_Some (credential env))
    /\ existsb is_fetch after = false
    /\ existsb is_lookup after = false
    /\ existsb is_create after = negb (truthy (found env (user_id user) docs)).
Proof.
  intros Hacc.
  pose (fault := listDocuments_fault env (lookup_query (user_id user))).
  exists (picture_events env).
  exists (logged "Error fetching user:" fault
          ++ (if truthy (found env (user_id user) docs) then []
              else create_event env user
                     :: logged "Error storing user data:"
                          (createDocument_fault env (profile_data env user)))).
  split; [| repeat split ].
  - unfold trace_of, run.
    rewrite (storeUserData_authenticated _ _ _ Hacc). cbn [store trace app].
    unfold lookup_events. fold fault.
    destruct (found env (user_id user) docs); cbn [truthy];
      try destruct (createDocument_fault env (profile_data env user));
      cbn [snd trace logged]; rewrite <- ?app_assoc; cbn [app];
      rewrite ?app_nil_r; reflexivity.
  - apply picture_events_no_lookup.
  - apply picture_events_no_create.
  - apply picture_events_fetch.
  - rewrite existsb_app, existsb_logged by reflexivity.
    destruct (truthy _); cbn; [reflexivity|]. now apply existsb_logged.
  - rewrite existsb_app, existsb_logged by reflexivity.
    destruct (truthy _); cbn; [reflexivity|]. now apply existsb_logged.
  - rewrite existsb_app, existsb_logged by reflexivity.
    destruct (truthy _); reflexivity.
Qed.

Lemma storeUserData_step_order_witness :
  account_get_result Sample.healthy = Returned Sample.ann
  /\ exists before after : list Event,
       trace_of storeUserData Sample.healthy []
         = EvAccountGet :: EvGetSession "current" :: before
             ++ EvListDocuments "db" "users" (lookup_query "acc1") :: after
       /\ existsb is_lookup before = false
       /\ existsb is_create before = false
       /\ existsb is_fetch before = bool_decide (is_Some (credential Sample.healthy))
       /\ existsb is_fetch after = false
       /\ existsb is_lookup after = false
       /\ existsb is_create after = negb (truthy (found Sample.healthy "acc1" [])).
Proof.
  split; [reflexivity |].
  apply (storeUserData_step_order Sample.healthy [] Sample.ann). reflexivity.
Defined.

(** C3 fails as stated: with the profile of [ann] in the store, the
    picture is fetched before the stored-profile lookup, and it is fetched
    although the lookup finds the profile. *)
Lemma storeUserData_fetches_before_lookup :
  trace_of storeUserData Sample.healthy [Sample.ann_profile]
    = [EvAccountGet; EvGetSession "current";
       EvFetch people_api "Bearer ya29.token";
       EvListDocuments "db" "users" [QEqual "accountId" "acc1"]]
  /\ lookup_before_fetch false (trace_of storeUserData Sample.healthy [Sample.ann_profile])
     = false
  /\ found Sample.healthy "acc1" [Sample.ann_profile] = Val Sample.ann_profile
  /\ existsb is_fetch (trace_of storeUserData Sample.healthy [Sample.ann_profile])
     = true.
Proof. repeat split; vm_compute; reflexivity. Qed.

(** *** The created record *)

Lemma found_no_profile (env : Env) (id : string) (docs : list Document) :
  profiles_of id docs = [] -> found env id docs = Null.
Proof.
  intros Hnone. unfold found. rewrite Hnone.
  now destruct (listDocuments_fault env (lookup_query id)).
Qed.

Lemma filter_absent {A} (p : A -> bool) (l : list A) :
  existsb p l = false -> List.filter p l = [].
Proof.
  induction l as [|a l IH]; cbn; [reflexivity|].
  destruct (p a); cbn; [discriminate | exact IH].
Qed.

(** The create operations of a call: one when the lookup reports no
    profile, none otherwise. *)
Lemma storeUserData_creates (env : Env) (docs : list Document) (user : User) :
  account_get_result env = Returned user ->
  List.filter is_create (trace_of storeUserData env docs)
    = if truthy (found env (user_id user) docs) then []
      else [create_event env user].
Proof.
  intros Hacc. unfold trace_of, run.
  rewrite (storeUserData_authenticated _ _ _ Hacc). cbn [store trace app].
  pose proof (filter_absent _ _ (picture_events_no_create env)) as Hp.
  pose proof (filter_absent _ _ (lookup_events_no_create env (user_id user))) as Hl.
  destruct (found env (user_id user) docs); cbn [truthy];
    try destruct (createDocument_fault env (profile_data env user));
    cbn [snd trace List.filter is_create];
    rewrite ?List.filter_app, Hp, Hl; reflexivity.
Qed.

(** The run of storeUserData for an authenticated session whose lookup
    reports no profile. *)
Lemma storeUserData_not_found (env : Env) (docs : list Document) (user : User) :
  account_get_result env = Returned user ->
  truthy (found env (user_id user) docs) = false ->
  let created := stored_document (unique_id env) (profile_data env user) in
  match createDocument_fault env (profile_data env user) with
  | None =>
      result_of storeUserData env docs = Returned (Val created)
      /\ store_after storeUserData env docs = docs ++ [created]
  | Some _ =>
      result_of storeUserData env docs = Returned Null
      /\ store_after storeUserData env docs = docs
  end.
Proof.
  intros Hacc Hfound. unfold result_of, trace_of, store_after, run.
  rewrite (storeUserData_authenticated _ _ _ Hacc). cbn [store trace app].
  destruct (found env (user_id user) docs); try discriminate Hfound;
    destruct (createDocument_fault env (profile_data env user));
    cbn [fst snd store trace]; split; reflexivity.
Qed.

Lemma new_profile_fields (user : User) (picture : Json) (joinedAt : string) :
  new_profile user picture joinedAt !! "accountId" = Some (JStr (user_id user))
  /\ new_profile user picture joinedAt !! "email" = Some (JStr (user_email user))
  /\ new_profile user picture joinedAt !! "name" = Some (JStr (user_name user))
  /\ new_profile user picture joinedAt !! "imageUrl" = Some picture
  /\ new_profile user picture joinedAt !! "joinedAt" = Some (JStr joinedAt)
  /\ dom (new_profile user picture joinedAt)
     = list_to_set ["accountId"; "email"; "name"; "imageUrl"; "joinedAt"].
Proof.
  unfold new_profile. repeat split.
Qed.

Lemma stored_document_field (id : string) (data : Document) (k : string) :
  k <> "$id" -> stored_document id data !! k = data !! k.
Proof. intros Hk. unfold stored_document. now rewrite lookup_insert_ne. Qed.

(** The picture of a session is [null] or the URL read from a successful
    response to the request made with the session's credential. *)
Lemma resolved_picture_cases (env : Env) :
  resolved_picture env = JNull
  \/ exists token data,
       credential env = Some token
       /\ picture_response env token = FetchResponse true (Some data)
       /\ photo_url data = Returned (resolved_picture env).
Proof.
  unfold resolved_picture, picture_of, fetch_verdict.
  destruct (credential env) as [token|]; [| now left].
  destruct (picture_response env token) as [err | [|] [data|]] eqn:Hresp;
    try (now left).
  destruct (photo_url data) as [v|err] eqn:Hurl; [| now left].
  right. exists token, data. auto.
Qed.

(** C2: for an authenticated session with a new accountId whose picture
    fetch fails (network error, non-success status, malformed body),
    storeUserData does not throw, and the profile it asks the store to
    create, which is the record it returns when the create succeeds, has
    imageUrl = null. *)
Theorem storeUserData_failing_picture (env : Env) (docs : list Document)
    (user : User) :
  account_get_result env = Returned user ->
  profiles_of (user_id user) docs = [] ->
  (forall token, credential env = Some token ->
                 fetch_fails (picture_response env token) = true) ->
  let data := new_profile user JNull (now_iso env) in
  let created := stored_document (unique_id env) data in
  data !! "imageUrl" = Some JNull
  /\ created !! "imageUrl" = Some JNull
  /\ (forall db coll id d,
        In (EvCreateDocument db coll id d) (trace_of storeUserData env docs) ->
        d = data)
  /\ In (EvCreateDocument (databaseId env) (userCollectionId env) (unique_id env) data)
        (trace_of storeUserData env docs)
  /\ match createDocument_fault env data with
     | None =>
         result_of storeUserData env docs = Returned (Val created)
         /\ store_after storeUserData env docs = docs ++ [created]
     | Some _ =>
         result_of storeUserData env docs = Returned Null
         /\ store_after storeUserData env docs = docs
     end.
Proof.
  intros Hacc Hnew Hfail data created.
  assert (Hpic : resolved_picture env = JNull).
  { unfold resolved_picture. destruct (credential env) as [token|] eqn:Hcred;
      [| reflexivity].
    now apply fetch_fails_picture, Hfail. }
  assert (Hdata : profile_data env user = data).
  { unfold profile_data. now rewrite Hpic. }
  pose proof (found_no_profile env _ _ Hnew) as Hfound.
  assert (Himg : data !! "imageUrl" = Some JNull)
    by apply new_profile_fields.
  split; [exact Himg |].
  split; [unfold created; now rewrite stored_document_field |].
  pose proof (storeUserData_creates env docs user Hacc) as Hcreates.
  rewrite Hfound in Hcreates. cbn [truthy] in Hcreates.
  unfold create_event in Hcreates. rewrite Hdata in Hcreates.
  split; [| split].
  - intros db coll id d Hin.
    assert (Hin' : In (EvCreateDocument db coll id d)
                      (List.filter is_create (trace_of storeUserData env docs)))
      by (apply filter_In; split; [exact Hin | reflexivity]).
    rewrite Hcreates in Hin'. destruct Hin' as [Heq | []].
    now injection Heq.
  - eapply proj1. apply (filter_In is_create). rewrite Hcreates. now left.
  - pose proof (storeUserData_not_found env docs user Hacc) as Hres.
    rewrite Hfound, Hdata in Hres. now apply Hres.
Qed.

Lemma storeUserData_failing_picture_witness :
  (account_get_result Sample.picture_forbidden = Returned Sample.ann
   /\ profiles_of "acc1" [] = []
   /\ credential Sample.picture_forbidden = Some "ya29.token"
   /\ fetch_fails (picture_response Sample.picture_forbidden "ya29.token") = true)
  /\ exists created,
       result_of storeUserData Sample.picture_forbidden [] = Returned (Val created)
       /\ created !! "imageUrl" = Some JNull.
Proof.
  split; [repeat split |].
  destruct (storeUserData_failing_picture Sample.picture_forbidden [] Sample.ann)
    as (_ & Himg & _ & _ & Hres & _).
  - reflexivity.
  - reflexivity.
  - intros token _. reflexivity.
  - eexists. split; [exact Hres | exact Himg].
Defined.

(** The picture of a session, case by case: the URL read from an ok
    response to the request made with the session's credential, [null]
    when there is no credential or the fetch fails. *)
Lemma resolved_picture_read (env : Env) (token : string) (data v : Json) :
  credential env = Some token ->
  picture_response env token = FetchResponse true (Some data) ->
  photo_url data = Returned v ->
  resolved_picture env = v.
Proof.
  intros Hcred Hresp Hurl.
  unfold resolved_picture, picture_of, fetch_verdict.
  now rewrite Hcred, Hresp, Hurl.
Qed.

Lemma resolved_picture_no_credential (env : Env) :
  credential env = None -> resolved_picture env = JNull.
Proof. intros Hcred. unfold resolved_picture. now rewrite Hcred. Qed.

Lemma resolved_picture_failed (env : Env) (token : string) :
  credential env = Some token ->
  fetch_fails (picture_response env token) = true ->
  resolved_picture env = JNull.
Proof.
  intros Hcred Hfail. unfold resolved_picture. rewrite Hcred.
  now apply fetch_fails_picture.
Qed.

(** C4: whenever storeUserData creates a record (authenticated identity,
    no stored profile of its accountId, the create succeeds), the data of
    the create has exactly the fields accountId, email, name, imageUrl and
    joinedAt, with the identity's accountId, email and name, the current
    timestamp as joinedAt, and as imageUrl the resolved picture: the URL
    read from the response to the picture request when that request
    succeeds, null when the session has no credential or the request
    fails.  The created record is the value returned. *)
Theorem storeUserData_created_record (env : Env) (docs : list Document)
    (user : User) :
  account_get_result env = Returned user ->
  profiles_of (user_id user) docs = [] ->
  createDocument_fault env (profile_data env user) = None ->
  exists created : Document,
    result_of storeUserData env docs = Returned (Val created)
    /\ store_after storeUserData env docs = docs ++ [created]
    /\ List.filter is_create (trace_of storeUserData env docs)
       = [EvCreateDocument (databaseId env) (userCollectionId env) (unique_id env)
            (new_profile user (resolved_picture env) (now_iso env))]
    /\ created = stored_document (unique_id env)
                   (new_profile user (resolved_picture env) (now_iso env))
    /\ dom (new_profile user (resolved_picture env) (now_iso env))
       = list_to_set ["accountId"; "email"; "name"; "imageUrl"; "joinedAt"]
    /\ created !! "accountId" = Some (JStr (user_id user))
    /\ created !! "email" = Some (JStr (user_email user))
    /\ created !! "name" = Some (JStr (user_name user))
    /\ created !! "joinedAt" = Some (JStr (now_iso env))
    /\ created !! "imageUrl" = Some (resolved_picture env)
    /\ (forall token data v,
          credential env = Some token ->
          picture_response env token = FetchResponse true (Some data) ->
          photo_url data = Returned v ->
          created !! "imageUrl" = Some v)
    /\ (credential env = None -> created !! "imageUrl" = Some JNull)
    /\ (forall token,
          credential env = Some token ->
          fetch_fails (picture_response env token) = true ->
          created !! "imageUrl" = Some JNull).
Proof.
  intros Hacc Hnew Hcreate.
  pose proof (found_no_profile env _ _ Hnew) as Hfound.
  pose proof (storeUserData_not_found env docs user Hacc) as Hres.
  rewrite Hfound, Hcreate in Hres. destruct (Hres eq_refl) as [Hval Hstore].
  pose proof (storeUserData_creates env docs user Hacc) as Hcreates.
  rewrite Hfound in Hcreates. cbn [truthy] in Hcreates.
  destruct (new_profile_fields user (resolved_picture env) (now_iso env))
    as (Hid & Hemail & Hname & Himg & Hjoined & Hdom).
  exists (stored_document (unique_id env) (profile_data env user)).
  unfold profile_data in *.
  assert (Himg' : stored_document (unique_id env)
                    (new_profile user (resolved_picture env) (now_iso env))
                    !! "imageUrl" = Some (resolved_picture env))
    by now rewrite stored_document_field.
  repeat match goal with |- _ /\ _ => split end;
    try (rewrite stored_document_field by discriminate; assumption);
    try assumption.
  - reflexivity.
  - intros token data v Hcred Hresp Hurl.
    now rewrite Himg', (resolved_picture_read env token data v).
  - intros Hcred. now rewrite Himg', resolved_picture_no_credential.
  - intros token Hcred Hfail.
    now rewrite Himg', (resolved_picture_failed env token).
Qed.

Lemma storeUserData_created_record_witness :
  (account_get_result Sample.healthy = Returned Sample.ann
   /\ profiles_of "acc1" [] = []
   /\ createDocument_fault Sample.healthy (profile_data Sample.healthy Sample.ann) = None
   /\ credential Sample.healthy = Some "ya29.token"
   /\ picture_response Sample.healthy "ya29.token"
      = FetchResponse true (Some Sample.photo_body)
   /\ photo_url Sample.photo_body = Returned (JStr "https://img.example/ann.png"))
  /\ exists created,
       result_of storeUserData Sample.healthy [] = Returned (Val created)
       /\ created !! "accountId" = Some (JStr "acc1")
       /\ created !! "imageUrl" = Some (JStr "https://img.example/ann.png")
       /\ created !! "joinedAt" = Some (JStr "2025-01-01T09:30:00.000Z").
Proof.
  split; [repeat split |].
  destruct (storeUserData_created_record Sample.healthy [] Sample.ann)
    as (created & Hval & _ & _ & _ & _ & Hid & _ & _ & Hjoined & _ & Hread & _);
    [reflexivity | reflexivity | reflexivity |].
  exists created.
  split; [exact Hval |]. split; [exact Hid |]. split; [| exact Hjoined].
  apply (Hread "ya29.token" Sample.photo_body); reflexivity.
Defined.

(** The value it creates in the healthy sample world. *)
Example storeUserData_first_login :
  result_of storeUserData Sample.healthy []
    = Returned (Val (stored_document "doc2"
                       (new_profile Sample.ann (JStr "https://img.example/ann.png")
                          "2025-01-01T09:30:00.000Z"))).
Proof. vm_compute. reflexivity. Qed.

(** *** Errors *)

Lemma storeUserData_never_throws (env : Env) (docs : list Document) :
  exists v, result_of storeUserData env docs = Returned v.
Proof.
  unfold result_of, run.
  destruct (account_get_result env) as [user|err] eqn:Hacc.
  - rewrite (storeUserData_authenticated _ _ _ Hacc). cbn [store trace app].
    destruct (found env (user_id user) docs);
      try destruct (createDocument_fault env (profile_data env user));
      cbn [fst]; eauto.
  - destruct (code_is err 401) eqn:H401.
    + rewrite (storeUserData_unauthorized _ _ _ Hacc H401). cbn. eauto.
    + rewrite (storeUserData_account_error _ _ _ Hacc H401). cbn. eauto.
Qed.

(** The calls of an authenticated run, in order. *)
Lemma storeUserData_trace (env : Env) (docs : list Document) (user : User) :
  account_get_result env = Returned user ->
  trace_of storeUserData env docs
    = EvAccountGet :: EvGetSession "current"
        :: picture_events env ++ lookup_events env (user_id user)
        ++ (if truthy (found env (user_id user) docs) then []
            else create_event env user
                   :: logged "Error storing user data:"
                        (createDocument_fault env (profile_data env user))).
Proof.
  intros Hacc. unfold trace_of, run.
  rewrite (storeUserData_authenticated _ _ _ Hacc). cbn [store trace app].
  destruct (found env (user_id user) docs); cbn [truthy];
    try destruct (createDocument_fault env (profile_data env user));
    cbn [snd trace logged]; rewrite <- ?app_assoc; cbn [app];
    rewrite ?app_nil_r; reflexivity.
Qed.

(** C5 (amended): for an authenticated session, no error raised during
    the stored-profile lookup or the create operation, whatever its class,
    propagates out of storeUserData.  When the create operation raises,
    storeUserData logs the error ("Error storing user data:") and returns
    null.  When the lookup raises, getExistingUser catches the error, logs
    it ("Error fetching user:") and returns null ("no profile"), and
    storeUserData goes on as for an absent profile: it returns the created
    record, or null when the create raises as well. *)
Theorem storeUserData_lookup_create_errors (env : Env) (docs : list Document)
    (user : User) :
  account_get_result env = Returned user ->
  (exists v, result_of storeUserData env docs = Returned v)
  /\ (forall err,
        createDocument_fault env (profile_data env user) = Some err ->
        In (create_event env user) (trace_of storeUserData env docs) ->
        result_of storeUserData env docs = Returned Null
        /\ last (trace_of storeUserData env docs)
           = Some (EvConsoleError "Error storing user data:" err))
  /\ (forall err,
        listDocuments_fault env (lookup_query (user_id user)) = Some err ->
        result_of (getExistingUser (user_id user)) env docs = Returned Null
        /\ trace_of (getExistingUser (user_id user)) env docs
           = [EvListDocuments (databaseId env) (userCollectionId env)
                [QEqual "accountId" (user_id user)];
              EvConsoleError "Error fetching user:" err]
        /\ (exists before after,
              trace_of storeUserData env docs
                = before
                    ++ [EvListDocuments (databaseId env) (userCollectionId env)
                          [QEqual "accountId" (user_id user)];
                        EvConsoleError "Error fetching user:" err;
                        create_event env user]
                    ++ after)
        /\ result_of storeUserData env docs
           = match createDocument_fault env (profile_data env user) with
             | None => Returned (Val (stored_document (unique_id env)
                                        (profile_data env user)))
             | Some _ => Returned Null
             end).
Proof.
  intros Hacc.
  pose proof (storeUserData_creates env docs user Hacc) as Hcreates.
  pose proof (storeUserData_not_found env docs user Hacc) as Hres.
  pose proof (storeUserData_trace env docs user Hacc) as Htrace.
  split; [apply storeUserData_never_throws |]. split.
  - intros err Hfault Hin.
    assert (Hin' : In (create_event env user)
                      (List.filter is_create (trace_of storeUserData env docs)))
      by (apply filter_In; split; [exact Hin | reflexivity]).
    rewrite Hcreates in Hin'.
    destruct (truthy (found env (user_id user) docs)); [destruct Hin' |].
    rewrite Hfault in Hres, Htrace. split; [now apply Hres |].
    rewrite Htrace. cbn [logged].
    replace (EvAccountGet :: EvGetSession "current"
               :: picture_events env ++ lookup_events env (user_id user)
               ++ [create_event env user;
                   EvConsoleError "Error storing user data:" err])
      with ((EvAccountGet :: EvGetSession "current"
               :: picture_events env ++ lookup_events env (user_id user)
               ++ [create_event env user])
              ++ [EvConsoleError "Error storing user data:" err])
      by (cbn [app]; now rewrite <- !app_assoc).
    apply last_snoc.
  - intros err Hfault.
    assert (Hfound : found env (user_id user) docs = Null)
      by (unfold found; now rewrite Hfault).
    rewrite Hfound in Hcreates, Hres, Htrace. cbn [truthy] in Hcreates, Htrace.
    split; [| split; [| split]].
    + unfold result_of, run. rewrite getExistingUser_run. cbn [fst store].
      now rewrite Hfound.
    + unfold trace_of, run. rewrite getExistingUser_run. cbn [snd trace app].
      unfold lookup_events. now rewrite Hfault.
    + exists (EvAccountGet :: EvGetSession "current" :: picture_events env),
        (logged "Error storing user data:"
           (createDocument_fault env (profile_data env user))).
      rewrite Htrace. unfold lookup_events. rewrite Hfault. cbn [logged].
      cbn [app]. rewrite <- ?app_assoc. reflexivity.
    + destruct (createDocument_fault env (profile_data env user));
        now apply Hres.
Qed.

Lemma storeUserData_lookup_create_errors_witness :
  (account_get_result Sample.create_down = Returned Sample.ann
   /\ createDocument_fault Sample.create_down
        (profile_data Sample.create_down Sample.ann) = Some Sample.backend_down
   /\ In (create_event Sample.create_down Sample.ann)
        (trace_of storeUserData Sample.create_down []))
  /\ (account_get_result Sample.listing_down = Returned Sample.ann
      /\ listDocuments_fault Sample.listing_down (lookup_query "acc1")
         = Some Sample.backend_down)
  /\ (result_of storeUserData Sample.create_down [] = Returned Null
      /\ last (trace_of storeUserData Sample.create_down [])
         = Some (EvConsoleError "Error storing user data:" Sample.backend_down))
  /\ trace_of (getExistingUser "acc1") Sample.listing_down []
     = [EvListDocuments "db" "users" [QEqual "accountId" "acc1"];
        EvConsoleError "Error fetching user:" Sample.backend_down].
Proof.
  assert (Hin : In (create_event Sample.create_down Sample.ann)
                   (trace_of storeUserData Sample.create_down []))
    by (vm_compute; tauto).
  split; [split; [reflexivity | split; [reflexivity | exact Hin]] |].
  split; [split; reflexivity |].
  split.
  - destruct (storeUserData_lookup_create_errors Sample.create_down [] Sample.ann)
      as (_ & Hcreate & _); [reflexivity |].
    apply (Hcreate Sample.backend_down); [reflexivity | exact Hin].
  - destruct (storeUserData_lookup_create_errors Sample.listing_down [] Sample.ann)
      as (_ & _ & Hlookup); [reflexivity |].
    destruct (Hlookup Sample.backend_down) as (_ & Htrace & _); [reflexivity |].
    exact Htrace.
Defined.

(** C5 fails as stated: when the listing call of the lookup raises an
    error that is not of the unauthorized class, storeUserData returns the
    record it then creates, not null. *)
Lemma storeUserData_lookup_error_not_null :
  account_get_result Sample.listing_down = Returned Sample.ann
  /\ listDocuments_fault Sample.listing_down (lookup_query "acc1")
     = Some Sample.backend_down
  /\ code_is Sample.backend_down 401 = false
  /\ result_of storeUserData Sample.listing_down []
     = Returned (Val (stored_document "doc2"
                        (new_profile Sample.ann (JStr "https://img.example/ann.png")
                           "2025-01-01T09:30:00.000Z")))
  /\ result_of storeUserData Sample.listing_down [] <> Returned Null.
Proof.
  repeat split; try (vm_compute; reflexivity).
  intros H. apply (f_equal returned_null) in H.
  vm_compute in H. discriminate H.
Qed.

(** ** Identity resolution without a session *)

(** The run of getUser when nobody is signed in. *)
Lemma getUser_unauthorized (env : Env) (s : Sys) (err : JsError) :
  account_get_result env = Thrown err ->
  code_is err 401 = true ->
  getUser env s
    = (Returned Null,
       {| store := store s;
          trace := trace s ++ [EvAccountGet; EvRedirect "/sign-in"] |}).
Proof.
  intros Hacc H401. unfold getUser. unfold_services. unfold_monad.
  cbn beta iota zeta. rewrite Hacc. cbn beta iota. rewrite H401.
  now norm_sys.
Qed.

(** C8, at a session that is signed out (account.get() rejects with code
    401): neither function throws; getUser yields [null], but
    storeUserData yields [undefined], which is not [null]. *)
Theorem storeUserData_signed_out_undefined :
  account_get_result Sample.signed_out = Thrown Sample.unauthorized
  /\ code_is Sample.unauthorized 401 = true
  /\ result_of getUser Sample.signed_out [] = Returned Null
  /\ result_of storeUserData Sample.signed_out [] = Returned Undefined
  /\ result_of storeUserData Sample.signed_out [] <> Returned Null
  /\ trace_of storeUserData Sample.signed_out []
     = [EvAccountGet; EvRedirect "/sign-in"].
Proof.
  assert (Hacc : account_get_result Sample.signed_out = Thrown Sample.unauthorized)
    by reflexivity.
  assert (H401 : code_is Sample.unauthorized 401 = true) by reflexivity.
  unfold result_of, trace_of, run.
  rewrite (getUser_unauthorized _ _ _ Hacc H401).
  rewrite (storeUserData_unauthorized _ _ _ Hacc H401).
  cbn [fst snd trace app]. repeat split. discriminate.
Qed.

(** ** Session lifecycle *)

(** C9: loginWithGoogle always starts the OAuth handshake with Google,
    with the success URL [origin + "/"] and the failure URL
    [origin + "/404"]; it makes no other outside call than logging the
    error of a handshake that could not be started, and it never throws. *)
Theorem loginWithGoogle_redirects (env : Env) (docs : list Document) :
  result_of loginWithGoogle env docs = Returned tt
  /\ List.filter (fun ev => negb (is_console ev)) (trace_of loginWithGoogle env docs)
     = [EvCreateOAuth2Session Google (origin env +:+ "/") (origin env +:+ "/404")]
  /\ head (trace_of loginWithGoogle env docs)
     = Some (EvCreateOAuth2Session Google (origin env +:+ "/") (origin env +:+ "/404"))
  /\ store_after loginWithGoogle env docs = docs.
Proof.
  unfold loginWithGoogle. run_simpl.
  destruct (account_createOAuth2Session_fault env); cbn; repeat split.
Qed.

Example loginWithGoogle_localhost :
  trace_of loginWithGoogle Sample.healthy []
    = [EvCreateOAuth2Session Google "http://localhost:5173/"
         "http://localhost:5173/404"].
Proof. reflexivity. Qed.

(** ** The profile of the signed-in user *)

Lemma run_profile_query (id : string) (docs : list Document) :
  run_queries (profile_query id) docs
    = {| documents := project selected_fields <$> profiles_of id docs;
         total := Z.of_nat (length (profiles_of id docs)) |}.
Proof.
  unfold run_queries.
  assert (Hhits : List.filter (matching (profile_query id)) docs = profiles_of id docs).
  { unfold profiles_of. induction docs as [|d docs IH]; cbn [List.filter].
    - reflexivity.
    - replace (matching (profile_query id) d) with (field_equals "accountId" id d)
        by (unfold matching, profile_query; cbn; now rewrite andb_true_r).
      now rewrite IH. }
  rewrite Hhits. unfold paginate, projection, profile_query. cbn.
  reflexivity.
Qed.

Lemma getUser_authenticated (env : Env) (s : Sys) (user : User) :
  account_get_result env = Returned user ->
  getUser env s
    = (Returned (own_profile env (user_id user) (store s)),
       {| store := store s;
          trace := trace s ++
            EvAccountGet
            :: EvListDocuments (databaseId env) (userCollectionId env)
                 (profile_query (user_id user))
            :: logged "Error fetching user:"
                 (listDocuments_fault env (profile_query (user_id user))) |}).
Proof.
  intros Hacc. unfold getUser, own_profile. unfold_services. unfold_monad.
  cbn beta iota zeta. rewrite Hacc. cbn beta iota.
  fold (profile_query (user_id user)). unfold log. cbn [store trace].
  rewrite run_profile_query.
  destruct (listDocuments_fault env (profile_query (user_id user))) as [err|];
    cbn [documents total logged].
  - now norm_sys.
  - destruct (profiles_of (user_id user) (store s)) as [|d rest]; cbn; now norm_sys.
Qed.

Lemma project_lookup (attrs : list string) (d : Document) (k : string) :
  project attrs d !! k = if decide (k ∈ attrs) then d !! k else None.
Proof.
  unfold project. rewrite map_lookup_filter.
  destruct (d !! k) as [v|]; cbn; [| now destruct (decide _)].
  destruct (decide (k ∈ attrs)) as [Hin|Hout].
  - now rewrite option_guard_True.
  - now rewrite option_guard_False.
Qed.

(** C10 (amended): for every authenticated session whose listing call
    succeeds, getUser asks the store for the documents of the accountId
    with a field-projection select of exactly name, email, imageUrl,
    joinedAt and accountId; with an existing StoredProfile it returns a
    record that contains only those fields, holding the values of the
    first stored profile of the account, and it returns null when no
    matching document exists. *)
Theorem getUser_projected_profile (env : Env) (docs : list Document) (user : User) :
  account_get_result env = Returned user ->
  listDocuments_fault env (profile_query (user_id user)) = None ->
  List.filter is_lookup (trace_of getUser env docs)
    = [EvListDocuments (databaseId env) (userCollectionId env)
         [QEqual "accountId" (user_id user);
          QSelect ["name"; "email"; "imageUrl"; "joinedAt"; "accountId"]]]
  /\ (forall d others,
        profiles_of (user_id user) docs = d :: others ->
        exists r,
          result_of getUser env docs = Returned (Val r)
          /\ (forall k, is_Some (r !! k) -> k ∈ selected_fields)
          /\ (forall k, k ∈ selected_fields -> r !! k = d !! k))
  /\ (profiles_of (user_id user) docs = [] ->
      result_of getUser env docs = Returned Null).
Proof.
  intros Hacc Hlist. unfold result_of, trace_of, run.
  rewrite (getUser_authenticated _ _ _ Hacc). cbn [fst snd store trace app].
  unfold own_profile. rewrite Hlist. cbn [logged]. split; [reflexivity |]. split.
  - intros d others Hprof. rewrite Hprof. eexists. split; [reflexivity |]. split.
    + intros k [v Hk]. rewrite project_lookup in Hk.
      destruct (decide (k ∈ selected_fields)); [assumption | discriminate].
    + intros k Hk. rewrite project_lookup. now rewrite decide_True.
  - intros Hnone. now rewrite Hnone.
Qed.

Lemma getUser_projected_profile_witness :
  (account_get_result Sample.healthy = Returned Sample.ann
   /\ listDocuments_fault Sample.healthy (profile_query "acc1") = None
   /\ profiles_of "acc1" [Sample.ann_profile] = [Sample.ann_profile])
  /\ exists r,
       result_of getUser Sample.healthy [Sample.ann_profile] = Returned (Val r)
       /\ r !! "$id" = None
       /\ r !! "email" = Some (JStr "ann@example.com").
Proof.
  split; [repeat split |].
  destruct (getUser_projected_profile Sample.healthy [Sample.ann_profile] Sample.ann)
    as (_ & Hsome & _); try reflexivity.
  destruct (Hsome Sample.ann_profile []) as (r & Hval & Honly & Hsame);
    [reflexivity |].
  exists r. split; [exact Hval |]. split.
  - destruct (r !! "$id") as [v|] eqn:Hid; [| reflexivity].
    assert (Hin : "$id" ∈ selected_fields) by (apply Honly; eauto).
    apply list_elem_of_In in Hin. cbn in Hin.
    exfalso. intuition discriminate.
  - rewrite Hsame; [reflexivity |].
    apply list_elem_of_In. cbn. tauto.
Defined.

(** C10 fails as stated: with the profile of [ann] in the store and the
    listing call failing, getUser returns null, not a record. *)
Lemma getUser_listing_down :
  account_get_result Sample.listing_down = Returned Sample.ann
  /\ profiles_of "acc1" [Sample.ann_profile] = [Sample.ann_profile]
  /\ result_of getUser Sample.listing_down [Sample.ann_profile] = Returned Null.
Proof. repeat split. Qed.

(** * Further properties of the module *)

(** ** Stored profiles of an account *)

Lemma field_equals_spec (a v : string) (d : Document) :
  field_equals a v d = true <-> d !! a = Some (JStr v).
Proof.
  unfold field_equals. destruct (d !! a) as [[]|]; try (split; discriminate).
  rewrite String.eqb_eq. split; [now intros -> | now intros [= ->]].
Qed.

Lemma profiles_of_In (id : string) (docs : list Document) (d : Document) :
  In d (profiles_of id docs) <-> In d docs /\ d !! "accountId" = Some (JStr id).
Proof. unfold profiles_of. now rewrite filter_In, field_equals_spec. Qed.

Lemma profiles_of_app (id : string) (docs more : list Document) :
  profiles_of id (docs ++ more) = profiles_of id docs ++ profiles_of id more.
Proof. apply List.filter_app. Qed.

Lemma profiles_of_empty (id : string) (docs : list Document) :
  profiles_of id docs = []
  <-> forall d, In d docs -> d !! "accountId" <> Some (JStr id).
Proof.
  split.
  - intros Hnone d Hin Hacc.
    assert (Hd : In d (profiles_of id docs)) by now apply profiles_of_In.
    rewrite Hnone in Hd. destruct Hd.
  - intros Hall. destruct (profiles_of id docs) as [|d rest] eqn:Hprof;
      [reflexivity |].
    assert (Hd : In d (profiles_of id docs)) by (rewrite Hprof; now left).
    apply profiles_of_In in Hd as [Hin Hacc]. now destruct (Hall d Hin).
Qed.

(** The record made for a user is a profile of that user's account. *)
Lemma created_account (uid : string) (user : User) (picture : Json) (now : string) :
  stored_document uid (new_profile user picture now) !! "accountId"
    = Some (JStr (user_id user)).
Proof.
  rewrite stored_document_field by discriminate. apply new_profile_fields.
Qed.

Lemma created_profile_account (env : Env) (user : User) :
  stored_document (unique_id env) (profile_data env user) !! "accountId"
    = Some (JStr (user_id user)).
Proof. unfold profile_data. exact (created_account _ _ _ _). Qed.

Lemma created_profile_mine (env : Env) (user : User) :
  field_equals "accountId" (user_id user)
    (stored_document (unique_id env) (profile_data env user)) = true.
Proof. apply field_equals_spec. exact (created_profile_account env user). Qed.

(** X2: getExistingUser never throws, never returns [undefined] and never
    changes the store.  A document it returns is in the store and carries
    the accountId asked for; it returns [null] exactly when the listing
    call fails or no stored document carries that accountId. *)
Theorem getExistingUser_sound (id : string) (env : Env) (docs : list Document) :
  store_after (getExistingUser id) env docs = docs
  /\ (result_of (getExistingUser id) env docs = Returned Null
      \/ exists d,
           result_of (getExistingUser id) env docs = Returned (Val d)
           /\ In d docs /\ d !! "accountId" = Some (JStr id))
  /\ (result_of (getExistingUser id) env docs = Returned Null
      <-> (listDocuments_fault env (lookup_query id) <> None
           \/ forall d, In d docs -> d !! "accountId" <> Some (JStr id))).
Proof.
  unfold result_of, store_after, run. rewrite getExistingUser_run.
  cbn [fst snd store]. unfold found.
  split; [reflexivity |].
  destruct (listDocuments_fault env (lookup_query id)) as [err|].
  { split; [now left |]. split; [intros _; now left | reflexivity]. }
  destruct (profiles_of id docs) as [|d rest] eqn:Hprof.
  - split; [now left |]. split; [| reflexivity].
    intros _. right. now apply profiles_of_empty.
  - assert (Hd : In d (profiles_of id docs)) by (rewrite Hprof; now left).
    apply profiles_of_In in Hd as [Hin Hacc].
    split; [right; eauto |]. split; [discriminate |].
    intros [Hfault | Hall]; [now destruct Hfault | now destruct (Hall d Hin)].
Qed.

(** ** What storeUserData does to the store *)

(** The three ways an authenticated call ends: the profile is found, a
    record is created, or the create fails. *)
Lemma storeUserData_outcomes (env : Env) (docs : list Document) (user : User) :
  account_get_result env = Returned user ->
  let created := stored_document (unique_id env) (profile_data env user) in
  (exists d, found env (user_id user) docs = Val d
             /\ result_of storeUserData env docs = Returned (Val d)
             /\ store_after storeUserData env docs = docs)
  \/ (truthy (found env (user_id user) docs) = false
      /\ createDocument_fault env (profile_data env user) = None
      /\ result_of storeUserData env docs = Returned (Val created)
      /\ store_after storeUserData env docs = docs ++ [created])
  \/ (truthy (found env (user_id user) docs) = false
      /\ createDocument_fault env (profile_data env user) <> None
      /\ result_of storeUserData env docs = Returned Null
      /\ store_after storeUserData env docs = docs).
Proof.
  intros Hacc created. unfold result_of, store_after, run.
  rewrite (storeUserData_authenticated _ _ _ Hacc). cbn [store trace app].
  destruct (found env (user_id user) docs) as [| |d];
    [ | | left; exists d; repeat split ];
    (destruct (createDocument_fault env (profile_data env user));
     [ right; right | right; left ]; now repeat split).
Qed.

Lemma found_Val (env : Env) (id : string) (docs : list Document) (d : Document) :
  found env id docs = Val d ->
  listDocuments_fault env (lookup_query id) = None
  /\ exists rest, profiles_of id docs = d :: rest.
Proof.
  unfold found. destruct (listDocuments_fault env (lookup_query id)); [discriminate |].
  destruct (profiles_of id docs) as [|d' rest]; [discriminate |].
  intros [= ->]. eauto.
Qed.

Lemma found_not_truthy (env : Env) (id : string) (docs : list Document) :
  truthy (found env id docs) = false ->
  listDocuments_fault env (lookup_query id) = None ->
  profiles_of id docs = [].
Proof.
  unfold found. intros Hfalsy Hlist. rewrite Hlist in Hfalsy.
  now destruct (profiles_of id docs).
Qed.


(** X12: a document that storeUserData returns to an authenticated
    session is in the store afterwards and carries the accountId of the
    session's identity. *)
Theorem storeUserData_returns_stored_profile (env : Env) (docs : list Document)
    (user : User) (d : Document) :
  account_get_result env = Returned user ->
  result_of storeUserData env docs = Returned (Val d) ->
  In d (store_after storeUserData env docs)
  /\ d !! "accountId" = Some (JStr (user_id user)).
Proof.
  intros Hacc Hval.
  destruct (storeUserData_outcomes env docs user Hacc)
    as [(d' & Hfound & Hres & Hstore)
       | [(_ & _ & Hres & Hstore) | (_ & _ & Hres & _)]];
    rewrite Hres in Hval; try discriminate Hval;
    injection Hval as <-; rewrite Hstore.
  - apply found_Val in Hfound as (_ & rest & Hprof).
    apply profiles_of_In. rewrite Hprof. now left.
  - split; [apply in_or_app; right; now left |].
    exact (created_profile_account env user).
Qed.

Lemma storeUserData_returns_stored_profile_witness :
  (account_get_result Sample.healthy = Returned Sample.ann
   /\ result_of storeUserData Sample.healthy [Sample.ann_profile]
      = Returned (Val Sample.ann_profile))
  /\ In Sample.ann_profile (store_after storeUserData Sample.healthy [Sample.ann_profile])
  /\ Sample.ann_profile !! "accountId" = Some (JStr "acc1").
Proof.
  split; [split; reflexivity |].
  apply (storeUserData_returns_stored_profile Sample.healthy [Sample.ann_profile]
           Sample.ann Sample.ann_profile); reflexivity.
Defined.

(** X3: storeUserData is idempotent across logins.  After a first call
    that created the profile of a new account, a later call for the same
    identity whose lookup succeeds returns that same record, creates
    nothing and leaves the store as the first call left it. *)
Theorem storeUserData_second_login (first later : Env) (docs : list Document)
    (user : User) :
  account_get_result first = Returned user ->
  account_get_result later = Returned user ->
  profiles_of (user_id user) docs = [] ->
  createDocument_fault first (profile_data first user) = None ->
  listDocuments_fault later (lookup_query (user_id user)) = None ->
  let after_first := store_after storeUserData first docs in
  result_of storeUserData later after_first = result_of storeUserData first docs
  /\ store_after storeUserData later after_first = after_first
  /\ existsb is_create (trace_of storeUserData later after_first) = false
  /\ length (profiles_of (user_id user) after_first) = 1%nat.
Proof.
  intros Hfirst Hlater Hnew Hcreate Hlist after_first.
  pose proof (found_no_profile first _ _ Hnew) as Hfound.
  pose proof (storeUserData_not_found first docs user Hfirst) as Hres.
  rewrite Hfound, Hcreate in Hres. destruct (Hres eq_refl) as [Hval Hstore].
  set (created := stored_document (unique_id first) (profile_data first user)) in *.
  assert (Hprof : profiles_of (user_id user) after_first = [created]).
  { unfold after_first. rewrite Hstore, profiles_of_app, Hnew. cbn.
    unfold created. now rewrite created_profile_mine. }
  assert (Hfound' : found later (user_id user) after_first = Val created)
    by (unfold found; now rewrite Hlist, Hprof).
  pose proof (storeUserData_creates later after_first user Hlater) as Hcreates.
  rewrite Hfound' in Hcreates. cbn [truthy] in Hcreates.
  destruct (storeUserData_outcomes later after_first user Hlater)
    as [(d & Hd & Hres' & Hstore') | [(Hno & _) | (Hno & _)]];
    try (rewrite Hfound' in Hno; discriminate Hno).
  rewrite Hfound' in Hd. injection Hd as <-.
  repeat split.
  - now rewrite Hres', Hval.
  - exact Hstore'.
  - destruct (existsb is_create _) eqn:Hex; [| reflexivity].
    apply existsb_exists in Hex as (ev & Hin & Hev).
    assert (Hin' : In ev (List.filter is_create
                            (trace_of storeUserData later after_first)))
      by now apply filter_In.
    rewrite Hcreates in Hin'. destruct Hin'.
  - now rewrite Hprof.
Qed.

Lemma storeUserData_second_login_witness :
  (account_get_result Sample.healthy = Returned Sample.ann
   /\ profiles_of "acc1" [] = []
   /\ createDocument_fault Sample.healthy (profile_data Sample.healthy Sample.ann) = None
   /\ listDocuments_fault Sample.picture_forbidden (lookup_query "acc1") = None)
  /\ result_of storeUserData Sample.picture_forbidden
       (store_after storeUserData Sample.healthy [])
     = result_of storeUserData Sample.healthy []
  /\ store_after storeUserData Sample.picture_forbidden
       (store_after storeUserData Sample.healthy [])
     = store_after storeUserData Sample.healthy [].
Proof.
  split; [repeat split |].
  destruct (storeUserData_second_login Sample.healthy Sample.picture_forbidden []
              Sample.ann) as (Hsame & Hstore & _); try reflexivity.
  split; [exact Hsame | exact Hstore].
Defined.

(** One call for a resolved identity whose lookup succeeds keeps the
    invariant. *)
Lemma storeUserData_authenticated_keeps_unique (env : Env) (docs : list Document)
    (user : User) :
  account_get_result env = Returned user ->
  listDocuments_fault env (lookup_query (user_id user)) = None ->
  (forall a, (length (profiles_of a docs) <= 1)%nat) ->
  forall a, (length (profiles_of a (store_after storeUserData env docs)) <= 1)%nat.
Proof.
  intros Hacc Hlist Huniq a.
  destruct (storeUserData_outcomes env docs user Hacc)
    as [(d & _ & _ & Hstore) | [(Hno & _ & _ & Hstore) | (_ & _ & _ & Hstore)]];
    rewrite Hstore; try apply Huniq.
  pose proof (found_not_truthy env _ _ Hno Hlist) as Hnew.
  rewrite profiles_of_app, length_app. cbn.
  destruct (field_equals "accountId" a _) eqn:Hmine; cbn.
  - apply field_equals_spec in Hmine.
    rewrite created_profile_account in Hmine.
    injection Hmine as <-. rewrite Hnew. cbn. lia.
  - specialize (Huniq a). lia.
Qed.

Lemma storeUserData_call_keeps_unique (env : Env) (docs : list Document) :
  lookup_succeeds env ->
  profiles_unique docs ->
  profiles_unique (store_after storeUserData env docs).
Proof.
  unfold lookup_succeeds, profiles_unique. intros Hlookup Huniq.
  destruct (account_get_result env) as [user|err] eqn:Hacc.
  - now apply (storeUserData_authenticated_keeps_unique env docs user).
  - unfold store_after, run. destruct (code_is err 401) eqn:H401.
    + now rewrite (storeUserData_unauthorized _ _ _ Hacc H401).
    + now rewrite (storeUserData_account_error _ _ _ Hacc H401).
Qed.

(** X13: when calls of storeUserData run one after another (each call
    completes before the next one starts and nothing else writes to the
    store in between) and the listing call of every lookup succeeds, the
    invariant "at most one stored profile per accountId" is kept: if it
    holds of the store before the first call, it holds of the store after
    the last.  Calls that overlap are not covered. *)
Theorem storeUserData_sequence_keeps_profiles_unique (envs : list Env)
    (docs : list Document) :
  Forall lookup_succeeds envs ->
  profiles_unique docs ->
  profiles_unique (logins envs docs).
Proof.
  unfold logins. intros Hlookups. revert docs.
  induction Hlookups as [|env envs Hlookup _ IH]; intros docs Huniq;
    cbn [fold_left].
  - exact Huniq.
  - apply IH. now apply storeUserData_call_keeps_unique.
Qed.

Lemma storeUserData_sequence_keeps_profiles_unique_witness :
  (Forall lookup_succeeds [Sample.healthy; Sample.picture_forbidden; Sample.healthy]
   /\ profiles_unique [])
  /\ profiles_unique
       (logins [Sample.healthy; Sample.picture_forbidden; Sample.healthy] [])
  /\ length (logins [Sample.healthy; Sample.picture_forbidden; Sample.healthy] [])
     = 1%nat.
Proof.
  assert (Hlookups : Forall lookup_succeeds
                       [Sample.healthy; Sample.picture_forbidden; Sample.healthy])
    by (repeat constructor).
  assert (Hempty : profiles_unique []) by (intros a; cbn; lia).
  split; [split; assumption |]. split; [| reflexivity].
  apply (storeUserData_sequence_keeps_profiles_unique
           [Sample.healthy; Sample.picture_forbidden; Sample.healthy] []);
    assumption.
Defined.

(** ** Failures of the session provider *)

Lemma getUser_account_error (env : Env) (s : Sys) (err : JsError) :
  account_get_result env = Thrown err ->
  code_is err 401 = false ->
  getUser env s
    = (Returned Null,
       {| store := store s;
          trace := trace s ++ [EvAccountGet;
                               EvConsoleError "Error fetching user:" err] |}).
Proof.
  intros Hacc H401. unfold getUser. unfold_services. unfold_monad.
  cbn beta iota zeta. rewrite Hacc. cbn beta iota. rewrite H401.
  now norm_sys.
Qed.

(** X5: when account.get() fails with an error whose code is not 401,
    storeUserData and getUser both return [null]; each logs the error
    once and makes no other call: no redirect, no session read, no picture
    request and no call to the store. *)
Theorem identity_error_gives_null (env : Env) (docs : list Document)
    (err : JsError) :
  account_get_result env = Thrown err ->
  code_is err 401 = false ->
  (result_of storeUserData env docs = Returned Null
   /\ trace_of storeUserData env docs
      = [EvAccountGet; EvConsoleError "Error storing user data:" err]
   /\ store_after storeUserData env docs = docs)
  /\ (result_of getUser env docs = Returned Null
      /\ trace_of getUser env docs
         = [EvAccountGet; EvConsoleError "Error fetching user:" err]
      /\ store_after getUser env docs = docs).
Proof.
  intros Hacc H401. unfold result_of, trace_of, store_after, run.
  rewrite (storeUserData_account_error _ _ _ Hacc H401).
  rewrite (getUser_account_error _ _ _ Hacc H401).
  now repeat split.
Qed.

Lemma identity_error_gives_null_witness :
  (account_get_result Sample.offline = Thrown (TypeError "Failed to fetch")
   /\ code_is (TypeError "Failed to fetch") 401 = false)
  /\ result_of storeUserData Sample.offline [Sample.ann_profile] = Returned Null
  /\ result_of getUser Sample.offline [Sample.ann_profile] = Returned Null.
Proof.
  split; [split; reflexivity |].
  destruct (identity_error_gives_null Sample.offline [Sample.ann_profile]
              (TypeError "Failed to fetch"))
    as ((Hstore & _) & (Hget & _)); try reflexivity.
  split; [exact Hstore | exact Hget].
Defined.

(** X6: for every error of account.get() whose code is 401, both
    functions call [redirect("/sign-in")], log nothing and make no call
    to the session, the picture endpoint or the store; getUser returns
    [null] and storeUserData returns [undefined]. *)
Theorem unauthorized_redirects (env : Env) (docs : list Document) (err : JsError) :
  account_get_result env = Thrown err ->
  code_is err 401 = true ->
  (result_of getUser env docs = Returned Null
   /\ trace_of getUser env docs = [EvAccountGet; EvRedirect "/sign-in"]
   /\ store_after getUser env docs = docs)
  /\ (result_of storeUserData env docs = Returned Undefined
      /\ trace_of storeUserData env docs = [EvAccountGet; EvRedirect "/sign-in"]
      /\ store_after storeUserData env docs = docs).
Proof.
  intros Hacc H401. unfold result_of, trace_of, store_after, run.
  rewrite (storeUserData_unauthorized _ _ _ Hacc H401).
  rewrite (getUser_unauthorized _ _ _ Hacc H401).
  now repeat split.
Qed.

Lemma unauthorized_redirects_witness :
  (account_get_result Sample.signed_out = Thrown Sample.unauthorized
   /\ code_is Sample.unauthorized 401 = true)
  /\ trace_of getUser Sample.signed_out [] = [EvAccountGet; EvRedirect "/sign-in"]
  /\ trace_of storeUserData Sample.signed_out []
     = [EvAccountGet; EvRedirect "/sign-in"].
Proof.
  split; [split; reflexivity |].
  destruct (unauthorized_redirects Sample.signed_out [] Sample.unauthorized)
    as ((_ & Hget & _) & (_ & Hstore & _)); try reflexivity.
  split; [exact Hget | exact Hstore].
Defined.

(** X1: logoutUser deletes the session "current" and nothing else; it
    never throws: a failing deletion is logged and swallowed. *)
Theorem logoutUser_swallows_failure (env : Env) (docs : list Document) :
  result_of logoutUser env docs = Returned tt
  /\ trace_of logoutUser env docs
     = EvDeleteSession "current"
         :: logged "Error during logout:" (account_deleteSession_fault env "current")
  /\ store_after logoutUser env docs = docs.
Proof.
  unfold logoutUser. run_simpl.
  destruct (account_deleteSession_fault env "current"); cbn; now repeat split.
Qed.

(** ** getUser and getAllUsers only read *)

(** X7: getUser never throws, never returns [undefined] and never
    changes the store; it makes no create call and no picture request. *)
Theorem getUser_read_only (env : Env) (docs : list Document) :
  store_after getUser env docs = docs
  /\ (exists v, result_of getUser env docs = Returned v /\ v <> Undefined)
  /\ existsb is_create (trace_of getUser env docs) = false
  /\ existsb is_fetch (trace_of getUser env docs) = false.
Proof.
  unfold result_of, trace_of, store_after, run.
  destruct (account_get_result env) as [user|err] eqn:Hacc.
  - rewrite (getUser_authenticated _ _ _ Hacc). cbn [fst snd store trace app].
    unfold own_profile.
    destruct (listDocuments_fault env (profile_query (user_id user))) as [e|];
      [| destruct (profiles_of (user_id user) docs)];
      cbn; repeat split; eexists; (split; [reflexivity | discriminate]).
  - destruct (code_is err 401) eqn:H401.
    + rewrite (getUser_unauthorized _ _ _ Hacc H401). cbn.
      repeat split. eexists; (split; [reflexivity | discriminate]).
    + rewrite (getUser_account_error _ _ _ Hacc H401). cbn.
      repeat split. eexists; (split; [reflexivity | discriminate]).
Qed.

(** X8: getAllUsers never throws and never changes the store; it makes
    one listing call, with exactly the queries limit(limit) and
    offset(offset), and logs the error of a failed call. *)
Theorem getAllUsers_single_listing (limit offset : Z) (env : Env)
    (docs : list Document) :
  (exists page, result_of (getAllUsers limit offset) env docs = Returned page)
  /\ store_after (getAllUsers limit offset) env docs = docs
  /\ trace_of (getAllUsers limit offset) env docs
     = EvListDocuments (databaseId env) (userCollectionId env)
         [QLimit limit; QOffset offset]
         :: logged "Error fetching users:"
              (listDocuments_fault env [QLimit limit; QOffset offset]).
Proof.
  unfold getAllUsers. run_simpl.
  destruct (listDocuments_fault env [QLimit limit; QOffset offset]); cbn;
    repeat split; eauto.
Qed.

(** ** The picture step *)

Lemma js_opt_index0_Some (w : Json) : js_opt_index0 (Some w) = js_index0 w.
Proof. now destruct w. Qed.

Lemma js_opt_member_Some (w : Json) (k : string) :
  js_opt_member (Some w) k = js_prop w k.
Proof. now destruct w. Qed.

Lemma url_of_photos (p : option Json) (v : Json) :
  js_or_null (js_opt_member (js_opt_index0 p) "url") = v ->
  v <> JNull ->
  exists photos first,
    p = Some photos /\ js_index0 photos = Some first /\ js_prop first "url" = Some v.
Proof.
  intros Hv Hnot. destruct p as [photos|]; [| cbn in Hv; congruence].
  rewrite js_opt_index0_Some in Hv.
  destruct (js_index0 photos) as [first|] eqn:Hfirst; [| cbn in Hv; congruence].
  rewrite js_opt_member_Some in Hv.
  destruct (js_prop first "url") as [u|] eqn:Hu; [| cbn in Hv; congruence].
  cbn in Hv. subst u. exists photos, first. repeat split; assumption.
Qed.

(** X10: reading [data.photos?.[0]?.url ?? null] throws only when the
    body is [null]; for every other body it yields a value, and that value
    is not [null] only if the body has a [photos] property whose element
    0 has that value as its [url]. *)
Theorem photo_url_total_but_null (data : Json) :
  ((exists err, photo_url data = Thrown err) <-> data = JNull)
  /\ forall v, photo_url data = Returned v -> v <> JNull ->
       exists photos first,
         js_prop data "photos" = Some photos
         /\ js_index0 photos = Some first
         /\ js_prop first "url" = Some v.
Proof.
  unfold photo_url, js_member. split.
  - split.
    + intros [err Herr]. now destruct data.
    + intros ->. eauto.
  - intros v Hv Hnot. apply url_of_photos; [| exact Hnot].
    destruct data; try discriminate Hv; now injection Hv.
Qed.

(** X9: getGooglePicture never throws and never touches the store; it
    makes one request, to the People API with the header
    [Authorization: Bearer <token>].  It returns a value other than [null]
    only if the response is ok, its body is JSON and element 0 of the
    body's [photos] has that value as its [url]. *)
Theorem getGooglePicture_single_request (token : string) (env : Env)
    (docs : list Document) :
  (exists v, result_of (getGooglePicture token) env docs = Returned v)
  /\ store_after (getGooglePicture token) env docs = docs
  /\ List.filter (fun ev => negb (is_console ev))
       (trace_of (getGooglePicture token) env docs)
     = [EvFetch "https://people.googleapis.com/v1/people/me?personFields=photos"
          ("Bearer " +:+ token)]
  /\ forall v,
       result_of (getGooglePicture token) env docs = Returned v -> v <> JNull ->
       exists data photos first,
         fetch_result env people_api ("Bearer " +:+ token)
           = FetchResponse true (Some data)
         /\ js_prop data "photos" = Some photos
         /\ js_index0 photos = Some first
         /\ js_prop first "url" = Some v.
Proof.
  unfold result_of, trace_of, store_after, run. rewrite getGooglePicture_run.
  cbn [fst snd store trace app]. split; [eauto |]. split; [reflexivity |]. split.
  - cbn. now destruct (fetch_error (picture_response env token)).
  - intros v [= Hv] Hnot. unfold picture_of, fetch_verdict, picture_response in Hv.
    destruct (fetch_result env people_api ("Bearer " +:+ token))
      as [err | [|] [data|]]; try (now destruct Hnot).
    destruct (photo_url data) as [w|err] eqn:Hurl; [| now destruct Hnot].
    subst w. exists data.
    destruct (proj2 (photo_url_total_but_null data) v Hurl Hnot)
      as (photos & first & H1 & H2 & H3).
    exists photos, first. auto.
Qed.

Lemma usable_token_credential (env : Env) :
  usable_token (account_getSession_result env "current") = false ->
  credential env = None.
Proof.
  unfold usable_token, credential, truthy_string.
  destruct (account_getSession_result env "current") as [[[token|]]|err];
    cbn; try reflexivity.
  now destruct (negb (String.eqb token "")).
Qed.

(** X11: when the current session cannot be read, or it has no
    providerAccessToken or an empty one, storeUserData makes no picture
    request and logs nothing about it: the call after
    [account.getSession("current")] is the stored-profile lookup, and a
    profile it asks the store to create has imageUrl = null. *)
Theorem storeUserData_without_token (env : Env) (docs : list Document)
    (user : User) :
  account_get_result env = Returned user ->
  usable_token (account_getSession_result env "current") = false ->
  existsb is_fetch (trace_of storeUserData env docs) = false
  /\ firstn 3 (trace_of storeUserData env docs)
     = [EvAccountGet; EvGetSession "current";
        EvListDocuments (databaseId env) (userCollectionId env)
          [QEqual "accountId" (user_id user)]]
  /\ forall db coll id d,
       In (EvCreateDocument db coll id d) (trace_of storeUserData env docs) ->
       d = new_profile user JNull (now_iso env).
Proof.
  intros Hacc Htoken. pose proof (usable_token_credential env Htoken) as Hcred.
  pose proof (storeUserData_creates env docs user Hacc) as Hcreates.
  assert (Hdata : create_event env user
                  = EvCreateDocument (databaseId env) (userCollectionId env)
                      (unique_id env) (new_profile user JNull (now_iso env)))
    by (unfold create_event, profile_data, resolved_picture; now rewrite Hcred).
  split; [| split].
  - unfold trace_of, run.
    rewrite (storeUserData_authenticated _ _ _ Hacc). cbn [store trace app].
    unfold picture_events, lookup_events. rewrite Hcred. cbn [app].
    destruct (found env (user_id user) docs);
      try destruct (createDocument_fault env (profile_data env user));
      cbn [snd trace]; cbn; rewrite ?existsb_app; cbn;
      rewrite existsb_logged by reflexivity; reflexivity.
  - unfold trace_of, run.
    rewrite (storeUserData_authenticated _ _ _ Hacc). cbn [store trace app].
    unfold picture_events, lookup_events. rewrite Hcred. cbn [app].
    destruct (found env (user_id user) docs);
      try destruct (createDocument_fault env (profile_data env user));
      reflexivity.
  - intros db coll id d Hin.
    assert (Hin' : In (EvCreateDocument db coll id d)
                      (List.filter is_create (trace_of storeUserData env docs)))
      by (apply filter_In; split; [exact Hin | reflexivity]).
    rewrite Hcreates, Hdata in Hin'.
    destruct (truthy (found env (user_id user) docs)); [destruct Hin' |].
    destruct Hin' as [Heq | []]. now injection Heq.
Qed.

Lemma storeUserData_without_token_witness :
  (account_get_result Sample.password_session = Returned Sample.ann
   /\ usable_token (account_getSession_result Sample.password_session "current")
      = false)
  /\ existsb is_fetch (trace_of storeUserData Sample.password_session []) = false.
Proof.
  split; [split; reflexivity |].
  apply (storeUserData_without_token Sample.password_session [] Sample.ann);
    reflexivity.
Defined.

(** ** Writing a profile and reading it back *)

(** The projection of getUser drops the document id and keeps the five
    fields written at creation. *)
Lemma project_stored_profile (uid : string) (user : User) (picture : Json)
    (joinedAt : string) :
  project selected_fields (stored_document uid (new_profile user picture joinedAt))
    = new_profile user picture joinedAt.
Proof.
  apply map_eq. intros k. rewrite project_lookup.
  destruct (new_profile_fields user picture joinedAt) as (_ & _ & _ & _ & _ & Hdom).
  destruct (decide (k ∈ selected_fields)) as [Hin|Hout].
  - apply stored_document_field. intros ->.
    apply list_elem_of_In in Hin. cbn in Hin. intuition discriminate.
  - symmetry. apply not_elem_of_dom. rewrite Hdom.
    intros Hk. apply Hout. apply elem_of_list_to_set in Hk.
    apply list_elem_of_In in Hk. apply list_elem_of_In.
    cbn in Hk |- *. tauto.
Qed.

(** X14: the profile that storeUserData creates at a first login is read
    back by getUser: a later getUser for the same identity whose listing
    call succeeds returns exactly the five fields that were written
    (accountId, email, name, imageUrl, joinedAt), without the document
    id. *)
Theorem getUser_after_first_login (first later : Env) (docs : list Document)
    (user : User) :
  account_get_result first = Returned user ->
  account_get_result later = Returned user ->
  profiles_of (user_id user) docs = [] ->
  createDocument_fault first (profile_data first user) = None ->
  listDocuments_fault later (profile_query (user_id user)) = None ->
  exists written : Document,
    List.filter is_create (trace_of storeUserData first docs)
      = [EvCreateDocument (databaseId first) (userCollectionId first)
           (unique_id first) written]
    /\ result_of getUser later (store_after storeUserData first docs)
       = Returned (Val written)
    /\ written !! "accountId" = Some (JStr (user_id user))
    /\ written !! "email" = Some (JStr (user_email user))
    /\ written !! "name" = Some (JStr (user_name user))
    /\ written !! "joinedAt" = Some (JStr (now_iso first))
    /\ written !! "$id" = None.
Proof.
  intros Hfirst Hlater Hnew Hcreate Hlist.
  pose proof (found_no_profile first _ _ Hnew) as Hfound.
  pose proof (storeUserData_not_found first docs user Hfirst) as Hres.
  rewrite Hfound, Hcreate in Hres. destruct (Hres eq_refl) as [_ Hstore].
  pose proof (storeUserData_creates first docs user Hfirst) as Hcreates.
  rewrite Hfound in Hcreates. cbn [truthy] in Hcreates.
  exists (profile_data first user). split; [exact Hcreates |]. split.
  - unfold result_of, run. rewrite (getUser_authenticated _ _ _ Hlater).
    cbn [fst store]. unfold own_profile. rewrite Hlist, Hstore.
    rewrite profiles_of_app, Hnew. cbn [app profiles_of List.filter].
    rewrite created_profile_mine.
    unfold profile_data. now rewrite project_stored_profile.
  - unfold profile_data.
    destruct (new_profile_fields user (resolved_picture first) (now_iso first))
      as (Hid & Hemail & Hname & _ & Hjoined & _).
    repeat split; assumption || reflexivity.
Qed.

Lemma getUser_after_first_login_witness :
  (account_get_result Sample.healthy = Returned Sample.ann
   /\ profiles_of "acc1" [] = []
   /\ createDocument_fault Sample.healthy (profile_data Sample.healthy Sample.ann) = None
   /\ listDocuments_fault Sample.healthy (profile_query "acc1") = None)
  /\ exists written : Document,
       result_of getUser Sample.healthy (store_after storeUserData Sample.healthy [])
         = Returned (Val written)
       /\ written !! "email" = Some (JStr "ann@example.com").
Proof.
  split; [repeat split |].
  destruct (getUser_after_first_login Sample.healthy Sample.healthy [] Sample.ann)
    as (written & _ & Hread & _ & Hemail & _); try reflexivity.
  exists written. split; [exact Hread | exact Hemail].
Defined.

(** X15: getUser and getExistingUser agree: for an authenticated
    session whose listing calls succeed, getUser returns the projection
    onto the five selected fields of the document that getExistingUser
    returns for the identity's accountId, and [null] when that returns
    [null]. *)
Theorem getUser_agrees_with_getExistingUser (env : Env) (docs : list Document)
    (user : User) :
  account_get_result env = Returned user ->
  listDocuments_fault env (lookup_query (user_id user)) = None ->
  listDocuments_fault env (profile_query (user_id user)) = None ->
  (forall d,
     result_of (getExistingUser (user_id user)) env docs = Returned (Val d) ->
     result_of getUser env docs = Returned (Val (project selected_fields d)))
  /\ (result_of (getExistingUser (user_id user)) env docs = Returned Null ->
      result_of getUser env docs = Returned Null).
Proof.
  intros Hacc Hlookup Hprofile. unfold result_of, run.
  rewrite getExistingUser_run, (getUser_authenticated _ _ _ Hacc).
  cbn [fst store]. unfold found, own_profile. rewrite Hlookup, Hprofile.
  destruct (profiles_of (user_id user) docs) as [|d' rest]; split;
    try discriminate; try reflexivity.
  now intros d [= <-].
Qed.

Lemma getUser_agrees_with_getExistingUser_witness :
  (account_get_result Sample.healthy = Returned Sample.ann
   /\ listDocuments_fault Sample.healthy (lookup_query "acc1") = None
   /\ listDocuments_fault Sample.healthy (profile_query "acc1") = None
   /\ result_of (getExistingUser "acc1") Sample.healthy [Sample.ann_profile]
      = Returned (Val Sample.ann_profile))
  /\ result_of getUser Sample.healthy [Sample.ann_profile]
     = Returned (Val (project selected_fields Sample.ann_profile)).
Proof.
  split; [repeat split |].
  destruct (getUser_agrees_with_getExistingUser Sample.healthy [Sample.ann_profile]
              Sample.ann) as (Hval & _);
    [reflexivity | reflexivity | reflexivity |].
  apply Hval. reflexivity.
Defined.
